(** * ChatRoom real-time subsystem: a shallow embedding of the WebSocket
    server ([ChatServer], server/websocket-server.js) and of the client
    connection manager ([WebSocketService], together with the parts of
    [ChatService] and js/app.js it relies on). *)

From Stdlib Require Import ZArith Ascii String List.
From stdpp Require Import base gmap list strings.
Import ListNotations.
Open Scope Z_scope.

(** ** Strings: the JavaScript helpers the code uses

    A JavaScript string is represented by its UTF-8 encoding (the encoding
    of the frames the server parses and of the page), so two strings are
    [===] exactly when their encodings are equal. Strings are well formed: a
    lone surrogate, which has no UTF-8 encoding, is outside the model. In
    UTF-8 an ASCII byte is a whole character and a lead byte (0xC2-0xF4) is
    never a continuation byte (0x80-0xBF), so a character is recognised by
    its bytes at either end of a string. *)
Module JsString.

(** The one-byte characters [String.prototype.trim] strips and [\s]
    matches: TAB, LF, VT, FF, CR and SPACE. *)
Definition is_ws1 (a : ascii) : bool :=
  match nat_of_ascii a with
  | 9%nat | 10%nat | 11%nat | 12%nat | 13%nat | 32%nat => true
  | _ => false
  end.

(** The two-byte one: U+00A0 (C2 A0). *)
Definition is_ws2 (a b : ascii) : bool :=
  Nat.eqb (nat_of_ascii a) 194 && Nat.eqb (nat_of_ascii b) 160.

(** The three-byte ones: U+1680 (E1 9A 80), U+2000-U+200A (E2 80 80-8A),
    U+2028, U+2029, U+202F (E2 80 A8, A9, AF), U+205F (E2 81 9F), U+3000
    (E3 80 80) and U+FEFF (EF BB BF). With the above, these are ECMAScript's
    WhiteSpace (TAB, VT, FF, U+FEFF and the Zs category) and LineTerminator
    (LF, CR, U+2028, U+2029). *)
Definition is_ws3 (a b c : ascii) : bool :=
  let x := nat_of_ascii a in
  let y := nat_of_ascii b in
  let z := nat_of_ascii c in
  (Nat.eqb x 225 && Nat.eqb y 154 && Nat.eqb z 128)
  || (Nat.eqb x 226 && Nat.eqb y 128
      && ((Nat.leb 128 z && Nat.leb z 138) || Nat.eqb z 168 || Nat.eqb z 169 || Nat.eqb z 175))
  || (Nat.eqb x 226 && Nat.eqb y 129 && Nat.eqb z 159)
  || (Nat.eqb x 227 && Nat.eqb y 128 && Nat.eqb z 128)
  || (Nat.eqb x 239 && Nat.eqb y 187 && Nat.eqb z 191).

(** The encoding [w] of one whitespace character. *)
Definition is_ws (w : list ascii) : bool :=
  match w with
  | [a] => is_ws1 a
  | [a; b] => is_ws2 a b
  | [a; b; c] => is_ws3 a b c
  | _ => false
  end.

(** A run of whitespace characters. *)
Inductive ws_seq : list ascii -> Prop :=
| ws_nil : ws_seq []
| ws_cons w l : is_ws w = true -> ws_seq l -> ws_seq (w ++ l).

(** Strips the whitespace characters at the start. *)
Fixpoint drop_ws (l : list ascii) : list ascii :=
  match l with
  | a :: l1 =>
      if is_ws1 a then drop_ws l1 else
      match l1 with
      | b :: l2 =>
          if is_ws2 a b then drop_ws l2 else
          match l2 with
          | c :: l3 => if is_ws3 a b c then drop_ws l3 else l
          | [] => l
          end
      | [] => l
      end
  | [] => []
  end.

(** Strips the whitespace characters at the start of a reversed string
    (at the end of the string): their bytes come last byte first. *)
Fixpoint drop_ws_rev (l : list ascii) : list ascii :=
  match l with
  | a :: l1 =>
      if is_ws1 a then drop_ws_rev l1 else
      match l1 with
      | b :: l2 =>
          if is_ws2 b a then drop_ws_rev l2 else
          match l2 with
          | c :: l3 => if is_ws3 c b a then drop_ws_rev l3 else l
          | [] => l
          end
      | [] => l
      end
  | [] => []
  end.

(** [s.trim()] *)
Definition trim (s : string) : string :=
  string_of_list_ascii
    (rev (drop_ws_rev (rev (drop_ws (list_ascii_of_string s))))).

(** JavaScript truthiness of a string-valued field: [undefined] and [""]
    are falsy. *)
Definition truthy (o : option string) : bool :=
  match o with
  | Some s => negb (String.eqb s "")
  | None => false
  end.

(** [s.length]: UTF-16 code units. A continuation byte (0x80-0xBF) adds
    none, the lead byte of a four-byte character (0xF0-0xF4, outside the
    BMP: a surrogate pair) two, any other byte one. *)
Fixpoint length16 (l : list ascii) : nat :=
  match l with
  | a :: l' =>
      let n := nat_of_ascii a in
      ((if (Nat.leb 128 n && Nat.ltb n 192)%bool then 0
        else if Nat.leb 240 n then 2 else 1) + length16 l')%nat
  | [] => 0%nat
  end.

(** [[A-Z0-9]] *)
Definition is_upper_alnum (a : ascii) : bool :=
  let n := nat_of_ascii a in
  (Nat.leb 65 n && Nat.leb n 90) || (Nat.leb 48 n && Nat.leb n 57).

(** [[a-z]] *)
Definition is_lower (a : ascii) : bool :=
  let n := nat_of_ascii a in Nat.leb 97 n && Nat.leb n 122.

(** The one-byte characters of [[a-zA-Z0-9\s\-_]]. *)
Definition is_name_char1 (a : ascii) : bool :=
  let n := nat_of_ascii a in
  is_upper_alnum a || is_lower a || is_ws1 a || Nat.eqb n 45 || Nat.eqb n 95.

(** Every character is in [[a-zA-Z0-9\s\-_]] (the only ones of two or three
    bytes are the whitespace ones of [\s]). *)
Fixpoint name_chars (l : list ascii) : bool :=
  match l with
  | a :: l1 =>
      if is_name_char1 a then name_chars l1 else
      match l1 with
      | b :: l2 =>
          if is_ws2 a b then name_chars l2 else
          match l2 with
          | c :: l3 => is_ws3 a b c && name_chars l3
          | [] => false
          end
      | [] => false
      end
  | [] => true
  end.

(** [/^[a-zA-Z0-9\s\-_]+$/.test(t)] *)
Definition name_regex (l : list ascii) : bool :=
  match l with
  | [] => false
  | _ => name_chars l
  end.

(** [s.toUpperCase()] as far as [/^[A-Z0-9]{6}$/] looks at it: [Some u]
    when the upper-case form of [s] is [u] and consists of [[A-Z0-9]] only,
    [None] when it contains any other character. [toUpperCase] maps each
    character by Unicode's case mapping (UnicodeData and SpecialCasing,
    independent of the locale); the characters whose upper-case form lies in
    [[A-Z0-9]+] are [[A-Z0-9]], [[a-z]] and these ten:
    U+00DF (C3 9F) to SS, U+0131 (C4 B1) to I, U+017F (C5 BF) to S, and the
    ligatures U+FB00-U+FB06 (EF AC 80-86) to FF, FI, FL, FFI, FFL, ST, ST. *)
Definition upper1 (a : ascii) : option (list ascii) :=
  if is_upper_alnum a then Some [a]
  else if is_lower a then Some [ascii_of_nat (nat_of_ascii a - 32)]
  else None.

Definition upper2 (a b : ascii) : option (list ascii) :=
  let x := nat_of_ascii a in
  let y := nat_of_ascii b in
  if Nat.eqb x 195 && Nat.eqb y 159 then Some ["S"; "S"]%char
  else if Nat.eqb x 196 && Nat.eqb y 177 then Some ["I"]%char
  else if Nat.eqb x 197 && Nat.eqb y 191 then Some ["S"]%char
  else None.

Definition upper3 (a b c : ascii) : option (list ascii) :=
  let z := nat_of_ascii c in
  if Nat.eqb (nat_of_ascii a) 239 && Nat.eqb (nat_of_ascii b) 172 then
    if Nat.eqb z 128 then Some ["F"; "F"]%char
    else if Nat.eqb z 129 then Some ["F"; "I"]%char
    else if Nat.eqb z 130 then Some ["F"; "L"]%char
    else if Nat.eqb z 131 then Some ["F"; "F"; "I"]%char
    else if Nat.eqb z 132 then Some ["F"; "F"; "L"]%char
    else if Nat.eqb z 133 then Some ["S"; "T"]%char
    else if Nat.eqb z 134 then Some ["S"; "T"]%char
    else None
  else None.

Fixpoint upper_alnum (l : list ascii) : option (list ascii) :=
  match l with
  | a :: l1 =>
      match upper1 a with
      | Some u => option_map (app u) (upper_alnum l1)
      | None =>
          match l1 with
          | b :: l2 =>
              match upper2 a b with
              | Some u => option_map (app u) (upper_alnum l2)
              | None =>
                  match l2 with
                  | c :: l3 =>
                      match upper3 a b c with
                      | Some u => option_map (app u) (upper_alnum l3)
                      | None => None
                      end
                  | [] => None
                  end
              end
          | [] => None
          end
      end
  | [] => Some []
  end.

End JsString.

Import JsString.

(** ** js/app.js: [validateRoomCode] and [validateUsername] *)
Definition validateRoomCode (code : option string) : bool :=
  match code with
  | None => false
  | Some c =>
      negb (String.eqb c "") &&
      match upper_alnum (list_ascii_of_string c) with
      | Some u => Nat.eqb (length u) 6
      | None => false
      end
  end.

Definition validateUsername (username : option string) : bool :=
  match username with
  | None => false
  | Some u =>
      let t := list_ascii_of_string (trim u) in
      negb (String.eqb u "") && Nat.leb 1 (length16 t) && Nat.leb (length16 t) 20
      && name_regex t
  end.

(** ** The server *)
Module Server.

(** A live connection object ([ws]); the maps of the server are keyed by it. *)
Abbreviation conn := nat (only parsing).

(** Entry of [this.clients]: [{ username, roomCode, lastSeen }]. *)
Record client := mkClient {
  username : string;
  roomCode : string;
  lastSeen : Z
}.

(** A parsed inbound JSON object; the fields the handlers read.  A field
    that is absent is [None]. *)
Record inmsg := mkIn {
  mtype : option string;
  mroomCode : option string;
  musername : option string;
  mid : option string;
  mcontent : option string;
  misTyping : option bool
}.

(** A raw frame: either [JSON.parse] succeeds, or it throws. *)
Inductive frame :=
| FParsed (m : inmsg)
| FInvalid.

(** Outbound messages ([this.send(ws, {...})]). *)
Inductive outmsg :=
| OConnected
| ORoomJoined (roomCode username : string)
| OUserJoined (username : string) (timestamp : Z)
| OUserLeft (username : string) (timestamp : Z)
| OUserList (users : list string)
| OChat (id username content : string) (timestamp : Z)
| OTyping (username : string) (isTyping : option bool) (timestamp : Z)
| OPong (timestamp : Z)
| OError (message : string) (timestamp : Z).

(** [this.rooms] (a Map of Sets, each Set kept in insertion order),
    [this.clients], and the connections whose [readyState] is [OPEN]. *)
Record server := mkServer {
  rooms : gmap string (list conn);
  clients : gmap conn client;
  openConns : gset conn
}.

Definition init : server := mkServer ∅ ∅ ∅.

Definition outs := list (conn * outmsg).

(** [Set.prototype.add] and [Set.prototype.delete]. *)
Definition set_add (x : conn) (r : list conn) : list conn :=
  if existsb (Nat.eqb x) r then r else r ++ [x].

Definition set_delete (x : conn) (r : list conn) : list conn :=
  List.filter (fun y => negb (Nat.eqb y x)) r.

Definition is_open (s : server) (ws : conn) : bool :=
  bool_decide (ws ∈ openConns s).

(** [send(ws, message)] *)
Definition send (s : server) (ws : conn) (m : outmsg) : outs :=
  if is_open s ws then [(ws, m)] else [].

(** [sendError(ws, errorMessage)] *)
Definition sendError (s : server) (ws : conn) (msg : string) (now : Z) : outs :=
  send s ws (OError msg now).

(** [broadcastToRoom(roomCode, message, excludeClient = null)] *)
Definition broadcastToRoom (s : server) (code : string) (m : outmsg)
    (exclude : option conn) : outs :=
  match rooms s !! code with
  | None => []
  | Some r =>
      flat_map (fun c =>
        if (negb (bool_decide (Some c = exclude)) && is_open s c)%bool
        then [(c, m)] else []) r
  end.

(** [getRoomUsers(roomCode)] *)
Definition getRoomUsers (s : server) (code : string) : list string :=
  match rooms s !! code with
  | None => []
  | Some r => omap (fun c => username <$> clients s !! c) r
  end.

(** [leaveCurrentRoom(ws)] *)
Definition leaveCurrentRoom (s : server) (ws : conn) (now : Z) : server * outs :=
  match clients s !! ws with
  | None => (s, [])
  | Some cl =>
      let code := roomCode cl in
      match rooms s !! code with
      | None => (s, [])
      | Some r =>
          let r' := set_delete ws r in
          if Nat.eqb (length r') 0 then
            (mkServer (delete code (rooms s)) (clients s) (openConns s), [])
          else
            let s' := mkServer (<[code := r']> (rooms s)) (clients s) (openConns s) in
            (s', broadcastToRoom s' code (OUserLeft (username cl) now) None
                 ++ broadcastToRoom s' code (OUserList (getRoomUsers s' code)) None)
      end
  end.

(** [handleJoinRoom(ws, message)] *)
Definition handleJoinRoom (s : server) (ws : conn) (m : inmsg) (now : Z)
    : server * outs :=
  match mroomCode m, musername m with
  | Some code, Some name =>
      if (String.eqb code "" || String.eqb name "")%bool
      then (s, sendError s ws "Room code and username are required" now)
      else
        let '(s1, o1) := leaveCurrentRoom s ws now in
        let r := default [] (rooms s1 !! code) in
        let s2 := mkServer (<[code := set_add ws r]> (rooms s1))
                    (<[ws := mkClient name code now]> (clients s1))
                    (openConns s1) in
        let users := getRoomUsers s2 code in
        (s2, o1 ++ send s2 ws (ORoomJoined code name)
                ++ broadcastToRoom s2 code (OUserJoined name now) (Some ws)
                ++ send s2 ws (OUserList users)
                ++ broadcastToRoom s2 code (OUserList users) None)
  | _, _ => (s, sendError s ws "Room code and username are required" now)
  end.

(** [message.id || this.generateId()] *)
Definition pick_id (id : option string) (generated : string) : string :=
  match id with
  | Some i => if String.eqb i "" then generated else i
  | None => generated
  end.

(** [handleChatMessage(ws, message)]; [generated] is the value
    [generateId()] would return. *)
Definition handleChatMessage (s : server) (ws : conn) (m : inmsg) (now : Z)
    (generated : string) : server * outs :=
  match clients s !! ws with
  | None => (s, sendError s ws "Not in a room" now)
  | Some cl =>
      match mcontent m with
      | Some content =>
          if String.eqb (trim content) ""
          then (s, sendError s ws "Message content is required" now)
          else
            let chat := OChat (pick_id (mid m) generated) (username cl)
                          (trim content) now in
            (s, broadcastToRoom s (roomCode cl) chat None)
      | None => (s, sendError s ws "Message content is required" now)
      end
  end.

(** [handleTyping(ws, message)] *)
Definition handleTyping (s : server) (ws : conn) (m : inmsg) (now : Z)
    : server * outs :=
  match clients s !! ws with
  | None => (s, [])
  | Some cl =>
      (s, broadcastToRoom s (roomCode cl)
            (OTyping (username cl) (misTyping m) now) (Some ws))
  end.

(** [handlePing(ws, message)] *)
Definition handlePing (s : server) (ws : conn) (now : Z) : server * outs :=
  let o := send s ws (OPong now) in
  match clients s !! ws with
  | None => (s, o)
  | Some cl =>
      (mkServer (rooms s)
         (<[ws := mkClient (username cl) (roomCode cl) now]> (clients s))
         (openConns s), o)
  end.

(** [handleMessage(ws, message)]: the [switch] on [message.type]; the
    [default] branch only logs. *)
Definition handleMessage (s : server) (ws : conn) (m : inmsg) (now : Z)
    (generated : string) : server * outs :=
  match mtype m with
  | Some t =>
      if String.eqb t "join_room" then handleJoinRoom s ws m now
      else if String.eqb t "chat_message" then handleChatMessage s ws m now generated
      else if String.eqb t "typing" then handleTyping s ws m now
      else if String.eqb t "ping" then handlePing s ws now
      else (s, [])
  | None => (s, [])
  end.

(** The [ws.on('message')] listener of [handleConnection]: a parse error
    is caught and answered with [sendError]. *)
Definition onMessage (s : server) (ws : conn) (f : frame) (now : Z)
    (generated : string) : server * outs :=
  match f with
  | FParsed m => handleMessage s ws m now generated
  | FInvalid => (s, sendError s ws "Invalid message format" now)
  end.

(** [handleDisconnection(ws)], run by the [ws.on('close')] listener. *)
Definition handleDisconnection (s : server) (ws : conn) (now : Z) : server * outs :=
  let '(s1, o) :=
    match clients s !! ws with
    | Some _ => leaveCurrentRoom s ws now
    | None => (s, [])
    end in
  (mkServer (rooms s1) (delete ws (clients s1)) (openConns s1), o).

(** Events the server reacts to. [EClose] is the [close] event of a
    connection (also emitted after [ws.terminate()] by the cleanup timer);
    [ECleanup] is one tick of [startCleanupTimer], which terminates the
    stale connections. *)
Inductive event :=
| EConnect (ws : conn)
| EFrame (ws : conn) (f : frame)
| EClose (ws : conn)
| ECleanup.

Definition stale (s : server) (now : Z) : gset conn :=
  dom (filter (fun '(_, cl) => now - lastSeen cl > 5 * 60 * 1000) (clients s)).

Definition step (s : server) (e : event) (now : Z) (generated : string)
    : server * outs :=
  match e with
  | EConnect ws =>
      let s' := mkServer (rooms s) (clients s) ({[ws]} ∪ openConns s) in
      (s', send s' ws OConnected)
  | EFrame ws f => onMessage s ws f now generated
  | EClose ws =>
      handleDisconnection (mkServer (rooms s) (clients s) (openConns s ∖ {[ws]})) ws now
  | ECleanup => (mkServer (rooms s) (clients s) (openConns s ∖ stale s now), [])
  end.

Inductive reachable : server -> Prop :=
| reach_init : reachable init
| reach_step s e now g : reachable s -> reachable (fst (step s e now g)).

(** The registry invariants: no room is empty, every member of a room has a
    client entry naming that room, and no room lists a connection twice. *)
Record Inv (s : server) : Prop := {
  inv_nonempty : forall c r, rooms s !! c = Some r -> r <> [];
  inv_owner : forall c r ws, rooms s !! c = Some r -> In ws r ->
      exists cl, clients s !! ws = Some cl /\ roomCode cl = c;
  inv_nodup : forall c r, rooms s !! c = Some r -> List.NoDup r
}.

(** What leaving does to one entry of [this.rooms]. *)
Definition prune (ws : conn) (o : option (list conn)) : option (list conn) :=
  match o with
  | Some r =>
      let r' := set_delete ws r in
      if Nat.eqb (length r') 0 then None else Some r'
  | None => None
  end.

(** The state [handleJoinRoom] builds once the previous room is left. *)
Definition joined (s1 : server) (ws : conn) (code name : string) (now : Z) : server :=
  mkServer (<[code := set_add ws (default [] (rooms s1 !! code))]> (rooms s1))
    (<[ws := mkClient name code now]> (clients s1)) (openConns s1).

(** The inbound message with its [username] field replaced. *)
Definition with_username (m : inmsg) (u : option string) : inmsg :=
  mkIn (mtype m) (mroomCode m) u (mid m) (mcontent m) (misTyping m).

(** The name an outbound chat or typing message is attributed to. *)
Definition sender_name (x : outmsg) : option string :=
  match x with
  | OChat _ un _ _ => Some un
  | OTyping un _ _ => Some un
  | _ => None
  end.

(** The [case] labels of [handleMessage]. *)
Definition known_type (t : option string) : bool :=
  match t with
  | Some t =>
      String.eqb t "join_room" || String.eqb t "chat_message"
      || String.eqb t "typing" || String.eqb t "ping"
  | None => false
  end.

(** Members of [r] other than [ws] registered under [name]. *)
Definition namesakes (cs : gmap conn client) (ws : conn) (name : string)
    (r : list conn) : nat :=
  length (List.filter (fun c =>
    negb (Nat.eqb c ws) &&
    match cs !! c with Some cl => String.eqb (username cl) name | None => false end) r).

End Server.

(** ** The client connection manager *)
Module Client.

Inductive readyState := CONNECTING | OPEN | CLOSED.

#[global] Instance readyState_eq_dec : EqDecision readyState.
Proof. solve_decision. Defined.

(** The fields of [WebSocketService] the connection logic uses, and the
    two flags of [ChatService] that its connection listener and its
    [connect] maintain ([useWebSocket = false] is the simulation mode).
    [timers] are the pending [setTimeout]s of [attemptReconnect], by delay;
    [socketsCreated] counts the [new WebSocket(...)] calls; [sent] lists the
    [type] of every message passed to [socket.send]; [pendingJoin] is the
    [onOpen] listener of the last [connect], holding its room and user. *)
Record client_state := mkClientState {
  socket : option readyState;
  isConnected : bool;
  reconnectAttempts : Z;
  maxReconnectAttempts : Z;
  reconnectDelay : Z;
  heartbeatOn : bool;
  timers : list Z;
  socketsCreated : nat;
  sent : list string;
  pendingJoin : option (string * string);
  webSocketConnected : bool;
  useWebSocket : bool
}.

(** The constructor. *)
Definition init : client_state :=
  mkClientState None false 0 5 1000 false [] 0 [] None false true.

Definition set_socket st x :=
  mkClientState x (isConnected st) (reconnectAttempts st) (maxReconnectAttempts st)
    (reconnectDelay st) (heartbeatOn st) (timers st) (socketsCreated st) (sent st)
    (pendingJoin st) (webSocketConnected st) (useWebSocket st).

(** [notifyConnectionListeners(b)]: the [ChatService] listener stores [b]. *)
Definition set_connected st (b : bool) :=
  mkClientState (socket st) b (reconnectAttempts st) (maxReconnectAttempts st)
    (reconnectDelay st) (heartbeatOn st) (timers st) (socketsCreated st) (sent st)
    (pendingJoin st) b (useWebSocket st).

Definition set_attempts st n :=
  mkClientState (socket st) (isConnected st) n (maxReconnectAttempts st)
    (reconnectDelay st) (heartbeatOn st) (timers st) (socketsCreated st) (sent st)
    (pendingJoin st) (webSocketConnected st) (useWebSocket st).

Definition set_heartbeat st b :=
  mkClientState (socket st) (isConnected st) (reconnectAttempts st)
    (maxReconnectAttempts st) (reconnectDelay st) b (timers st) (socketsCreated st)
    (sent st) (pendingJoin st) (webSocketConnected st) (useWebSocket st).

Definition set_timers st l :=
  mkClientState (socket st) (isConnected st) (reconnectAttempts st)
    (maxReconnectAttempts st) (reconnectDelay st) (heartbeatOn st) l (socketsCreated st)
    (sent st) (pendingJoin st) (webSocketConnected st) (useWebSocket st).

(** [sendMessage(data)]: only on an open socket. *)
Definition sendMessage st (ty : string) :=
  if bool_decide (socket st = Some OPEN) then
    mkClientState (socket st) (isConnected st) (reconnectAttempts st)
      (maxReconnectAttempts st) (reconnectDelay st) (heartbeatOn st) (timers st)
      (socketsCreated st) (sent st ++ [ty]) (pendingJoin st) (webSocketConnected st)
      (useWebSocket st)
  else st.

(** [disconnect()]: the listeners are removed before [close(1000)], so no
    [handleClose] runs. *)
Definition disconnect st :=
  let st1 := match socket st with
             | Some _ => set_socket (set_heartbeat st false) None
             | None => st
             end in
  set_connected (set_attempts st1 0) false.

(** [connect(roomCode, username)] up to the creation of the socket. *)
Definition connect st (room user : string) :=
  let st1 := if bool_decide (socket st = Some OPEN) then disconnect st else st in
  mkClientState (Some CONNECTING) (isConnected st1) (reconnectAttempts st1)
    (maxReconnectAttempts st1) (reconnectDelay st1) (heartbeatOn st1) (timers st1)
    (S (socketsCreated st1)) (sent st1) (Some (room, user))
    (webSocketConnected st1) (useWebSocket st1).

(** The [open] event: [handleOpen()], then the [onOpen] listener of
    [connect], which sends [join_room] and removes itself. *)
Definition handleOpen st :=
  let st1 := set_connected (set_heartbeat (set_attempts (set_socket st (Some OPEN)) 0) true) true in
  match pendingJoin st1 with
  | Some _ =>
      let st2 := sendMessage st1 "join_room" in
      mkClientState (socket st2) (isConnected st2) (reconnectAttempts st2)
        (maxReconnectAttempts st2) (reconnectDelay st2) (heartbeatOn st2) (timers st2)
        (socketsCreated st2) (sent st2) None (webSocketConnected st2) (useWebSocket st2)
  | None => st1
  end.

(** The delay [reconnectDelay * Math.pow(2, reconnectAttempts - 1)]. *)
Definition backoff st (attempt : Z) : Z := reconnectDelay st * 2 ^ (attempt - 1).

(** [attemptReconnect()] *)
Definition attemptReconnect st :=
  let n := reconnectAttempts st + 1 in
  let st1 := set_attempts st n in
  set_timers st1 (timers st1 ++ [backoff st1 n]).

(** [handleClose(event)] *)
Definition handleClose st (code : Z) :=
  let st1 := set_connected (set_heartbeat (set_socket st (Some CLOSED)) false) false in
  if (negb (Z.eqb code 1000) && Z.ltb (reconnectAttempts st1) (maxReconnectAttempts st1))%bool
  then attemptReconnect st1 else st1.

(** A reconnect timer fires: its callback only logs
    ([if (this.reconnectAttempts <= this.maxReconnectAttempts)
      console.log('Reconnection attempt...')]). *)
Definition fireReconnectTimer st :=
  match timers st with
  | _ :: rest => set_timers st rest
  | [] => st
  end.

(** [ChatService.connect] catches the rejection of the connection promise
    (timeout or error before [open]) and switches to simulation mode. *)
Definition connectRejected st :=
  mkClientState (socket st) (isConnected st) (reconnectAttempts st)
    (maxReconnectAttempts st) (reconnectDelay st) (heartbeatOn st) (timers st)
    (socketsCreated st) (sent st) (pendingJoin st) false false.

Inductive cevent :=
| CEConnect (room user : string)
| CEOpen
| CEClose (code : Z)
| CETimer
| CEDisconnect
| CEConnectRejected.

Definition cstep st (e : cevent) : client_state :=
  match e with
  | CEConnect room user => connect st room user
  | CEOpen => handleOpen st
  | CEClose code => handleClose st code
  | CETimer => fireReconnectTimer st
  | CEDisconnect => disconnect st
  | CEConnectRejected => connectRejected st
  end.

Definition crun st (es : list cevent) : client_state := fold_left cstep es st.

Inductive creachable : client_state -> Prop :=
| creach_init : creachable init
| creach_step st e : creachable st -> creachable (cstep st e).

End Client.

(** ** Concrete scenarios *)
Module Scenarios.
Import Server.

Definition join_msg (code name : string) : inmsg :=
  mkIn (Some "join_room"%string) (Some code) (Some name) None None None.

Definition chat_msg (content : string) : inmsg :=
  mkIn (Some "chat_message"%string) None (Some "Mallory"%string) None (Some content) None.

Definition typing_msg : inmsg :=
  mkIn (Some "typing"%string) None (Some "Mallory"%string) None None (Some true).

(** U+00A0 (NO-BREAK SPACE), which [trim] strips. *)
Definition nbsp : string := String (ascii_of_nat 194) (String (ascii_of_nat 160) EmptyString).

Definition unknown_msg : inmsg :=
  mkIn (Some "shout"%string) None None None None None.

(** Run events, all at time 0. *)
Definition run (s : server) (evs : list event) : server :=
  fold_left (fun s e => fst (step s e 0 "")) evs s.

Definition demo_one : server := run init [EConnect 1%nat].

Definition demo_A : server :=
  run init [EConnect 1%nat; EFrame 1%nat (FParsed (join_msg "AB12CD" "A"))].

Definition demo_AB : server :=
  run init [EConnect 1%nat; EConnect 2%nat;
            EFrame 1%nat (FParsed (join_msg "AB12CD" "A"));
            EFrame 2%nat (FParsed (join_msg "AB12CD" "B"))].

Definition demo_twins : server :=
  run init [EConnect 1%nat; EConnect 2%nat;
            EFrame 1%nat (FParsed (join_msg "ABC123" "Alice"));
            EFrame 2%nat (FParsed (join_msg "ABC123" "Alice"))].

End Scenarios.

(** ** StorageService: the recent-room list and the chat history *)
Module Storage.

(** An entry of the [recent_rooms] array. *)
Record recent_room := mkRecent {
  rcode : string;
  rname : string;
  lastJoined : Z;
  rusername : option string
}.

(** The [roomData] argument of [addRecentRoom]. *)
Record room_data := mkRoomData {
  rd_code : string;
  rd_name : option string;
  rd_username : option string
}.

(** A message object passed to [saveMessage]; an absent field is [None]. *)
Record message := mkMessage {
  msg_id : option string;
  msg_author : option string;
  msg_content : option string;
  msg_timestamp : option Z;
  msg_type : option string
}.

(** The object [saveMessage] pushes. *)
Record stored := mkStored {
  sid : string;
  sauthor : option string;
  scontent : option string;
  stimestamp : Z;
  stype : string
}.

(** The [recent_rooms] and [chat_history] entries of [localStorage], as the
    values they serialise ([None]: never written).  [setItem] is taken to
    succeed. *)
Record store := mkStore {
  recent_rooms : option (list recent_room);
  chat_history : option (gmap string (list stored))
}.

(** [getRecentRooms()] *)
Definition getRecentRooms (st : store) : list recent_room := default [] (recent_rooms st).

(** [findIndex] by code, then [splice(existingIndex, 1)]. *)
Fixpoint remove_first (code : string) (l : list recent_room) : list recent_room :=
  match l with
  | [] => []
  | r :: l' => if String.eqb (rcode r) code then l' else r :: remove_first code l'
  end.

(** [addRecentRoom(roomData)]; [now] is [Date.now()]. *)
Definition addRecentRoom (st : store) (rd : room_data) (now : Z) : store :=
  let recentRooms := remove_first (rd_code rd) (getRecentRooms st) in
  let recentRooms :=
    mkRecent (rd_code rd) (Server.pick_id (rd_name rd) ("Room " ++ rd_code rd)) now
      (rd_username rd) :: recentRooms in
  let recentRooms :=
    if Nat.ltb 10 (length recentRooms) then firstn 10 recentRooms else recentRooms in
  mkStore (Some recentRooms) (chat_history st).

(** [removeRecentRoom(roomCode)] *)
Definition removeRecentRoom (st : store) (code : string) : store :=
  mkStore (Some (List.filter (fun r => negb (String.eqb (rcode r) code)) (getRecentRooms st)))
    (chat_history st).

(** [this.getItem(this.keys.CHAT_HISTORY, {})] *)
Definition allHistory (st : store) : gmap string (list stored) := default ∅ (chat_history st).

(** [getChatHistory(roomCode)] *)
Definition getChatHistory (st : store) (roomCode : string) : list stored :=
  default [] (allHistory st !! roomCode).

(** [message.timestamp || Date.now()]: [0] is falsy. *)
Definition pick_timestamp (t : option Z) (now : Z) : Z :=
  match t with
  | Some t => if Z.eqb t 0 then now else t
  | None => now
  end.

(** [saveMessage(roomCode, message)]; [generated] is what [generateId()]
    would return. *)
Definition saveMessage (st : store) (roomCode : string) (m : message) (now : Z)
    (generated : string) : store :=
  let all := allHistory st in
  let h := default [] (all !! roomCode) in
  let h := h ++ [mkStored (Server.pick_id (msg_id m) generated) (msg_author m)
                   (msg_content m) (pick_timestamp (msg_timestamp m) now)
                   (Server.pick_id (msg_type m) "user")] in
  let h := if Nat.ltb 100 (length h) then skipn (length h - 100) h else h in
  mkStore (recent_rooms st) (Some (<[roomCode := h]> all)).

(** [clearChatHistory(roomCode)] *)
Definition clearChatHistory (st : store) (roomCode : string) : store :=
  mkStore (recent_rooms st) (Some (delete roomCode (allHistory st))).

End Storage.

(** ** js/app.js: [escapeHTML] *)
Module Html.
Local Open Scope char_scope.

(** [str.replace(/c/g, r)] for a one-character ASCII pattern: in UTF-8 an
    ASCII byte is always a whole character, so replacing bytes replaces
    characters. *)
Definition replace_all (c : ascii) (r : string) (l : list ascii) : list ascii :=
  flat_map (fun a => if Ascii.eqb a c then list_ascii_of_string r else [a]) l.

(** [escapeHTML(str)]: five global replacements, in the source's order. *)
Definition escapeHTML (str : option string) : string :=
  match str with
  | Some s =>
      if String.eqb s "" then ""
      else string_of_list_ascii
        (replace_all "'" "&#39;"
        (replace_all "034" "&quot;"
        (replace_all ">" "&gt;"
        (replace_all "<" "&lt;"
        (replace_all "&" "&amp;" (list_ascii_of_string s))))))
  | None => ""
  end.

(** The escape of one character, in a single pass. *)
Definition escape_char (a : ascii) : list ascii :=
  if Ascii.eqb a "&" then list_ascii_of_string "&amp;"
  else if Ascii.eqb a "<" then list_ascii_of_string "&lt;"
  else if Ascii.eqb a ">" then list_ascii_of_string "&gt;"
  else if Ascii.eqb a "034" then list_ascii_of_string "&quot;"
  else if Ascii.eqb a "'" then list_ascii_of_string "&#39;"
  else [a].

(** How an HTML text node decodes the five entities [escapeHTML] emits. *)
Fixpoint unescapeHTML (l : list ascii) : list ascii :=
  match l with
  | "&" :: "a" :: "m" :: "p" :: ";" :: r => "&" :: unescapeHTML r
  | "&" :: "l" :: "t" :: ";" :: r => "<" :: unescapeHTML r
  | "&" :: "g" :: "t" :: ";" :: r => ">" :: unescapeHTML r
  | "&" :: "q" :: "u" :: "o" :: "t" :: ";" :: r => "034" :: unescapeHTML r
  | "&" :: "#" :: "3" :: "9" :: ";" :: r => "'" :: unescapeHTML r
  | a :: r => a :: unescapeHTML r
  | [] => []
  end.

(** Characters that are markup in an HTML text or attribute value. *)
Definition is_markup (a : ascii) : bool :=
  Ascii.eqb a "<" || Ascii.eqb a ">" || Ascii.eqb a "034" || Ascii.eqb a "'".

End Html.

(** ** ChatService: the WebSocket listeners and the inputs of [connect] *)
Module ChatClient.
Import Server.

(** [connect(roomCode, username)] up to the WebSocket call: it throws unless
    both validate, then keeps [roomCode.toUpperCase()] and [username.trim()],
    the values passed to [webSocketService.connect] and sent in [join_room].
    Once [validateRoomCode] holds, [roomCode.toUpperCase()] is the form
    [upper_alnum] gives (so its [None] branch is never taken). *)
Definition connect_inputs (roomCode username : string) : option (string * string) :=
  if (validateRoomCode (Some roomCode) && validateUsername (Some username))%bool
  then match upper_alnum (list_ascii_of_string roomCode) with
       | Some u => Some (string_of_list_ascii u, trim username)
       | None => None
       end
  else None.

(** An entry of [this.messages]. *)
Record chat_message := mkChatMessage {
  cm_id : string;
  cm_author : string;
  cm_content : string;
  cm_timestamp : Z;
  cm_type : string;
  cm_isOwn : bool
}.

(** The fields of [ChatService] the listeners touch, once [connect] has set
    [currentRoom] and [currentUser]; [storage] is the global
    [StorageService]. *)
Record chat_state := mkChatState {
  currentRoom : string;
  currentUser : string;
  messages : list chat_message;
  onlineUsers : list string;
  typingUsers : list string;
  storage : Storage.store
}.

(** [Set.prototype.add] and [Set.prototype.delete] on a set of names. *)
Definition sset_add (x : string) (l : list string) : list string :=
  if existsb (String.eqb x) l then l else l ++ [x].

Definition sset_delete (x : string) (l : list string) : list string :=
  List.filter (fun y => negb (String.eqb y x)) l.

Definition to_storage (m : chat_message) : Storage.message :=
  Storage.mkMessage (Some (cm_id m)) (Some (cm_author m)) (Some (cm_content m))
    (Some (cm_timestamp m)) (Some (cm_type m)).

(** [this.addMessage(message)] then [storage.saveMessage(this.currentRoom,
    message)]; listeners and the notification sound are not modelled. *)
Definition add_and_save (st : chat_state) (m : chat_message) (now : Z)
    (generated : string) : chat_state :=
  mkChatState (currentRoom st) (currentUser st) (messages st ++ [m]) (onlineUsers st)
    (typingUsers st)
    (Storage.saveMessage (storage st) (currentRoom st) (to_storage m) now generated).

(** [addSystemMessage(content)] *)
Definition addSystemMessage (st : chat_state) (content : string) (now : Z)
    (generated : string) : chat_state :=
  add_and_save st (mkChatMessage generated "System" content now "system" false) now generated.

Definition set_online (st : chat_state) (l : list string) : chat_state :=
  mkChatState (currentRoom st) (currentUser st) (messages st) l (typingUsers st) (storage st).

Definition set_typing (st : chat_state) (l : list string) : chat_state :=
  mkChatState (currentRoom st) (currentUser st) (messages st) (onlineUsers st) l (storage st).

(** [handleWebSocketMessage(data)] for a [chat_message] as the server sends it. *)
Definition handleWebSocketMessage (st : chat_state) (id username content : string)
    (timestamp : Z) (now : Z) (generated : string) : chat_state :=
  if String.eqb username (currentUser st) then st
  else add_and_save st
         (mkChatMessage (pick_id (Some id) generated) username content timestamp "user" false)
         now generated.

(** The [data.type] cases of [handleWebSocketUserChange]. *)
Inductive user_change :=
| UJoined (username : string)
| ULeft (username : string)
| UList (users : list string).

(** [handleWebSocketUserChange(data)] *)
Definition handleWebSocketUserChange (st : chat_state) (d : user_change) (now : Z)
    (generated : string) : chat_state :=
  match d with
  | UJoined u =>
      if String.eqb u (currentUser st) then st
      else addSystemMessage (set_online st (sset_add u (onlineUsers st)))
             (u ++ " joined the room") now generated
  | ULeft u =>
      if String.eqb u (currentUser st) then st
      else addSystemMessage (set_online st (sset_delete u (onlineUsers st)))
             (u ++ " left the room") now generated
  | UList users => set_online st (fold_left (fun l u => sset_add u l) users [])
  end.

(** [handleWebSocketTyping(data)]; an absent [isTyping] is falsy. *)
Definition handleWebSocketTyping (st : chat_state) (username : string)
    (isTyping : option bool) : chat_state :=
  if String.eqb username (currentUser st) then st
  else if default false isTyping then set_typing st (sset_add username (typingUsers st))
  else set_typing st (sset_delete username (typingUsers st)).

(** A server message arriving at the client: [WebSocketService.handleMessage]
    parses it and routes it to the [ChatService] listener of its type; the
    other types only log, show a toast or clear the heartbeat timeout. *)
Definition receive (st : chat_state) (x : outmsg) (now : Z) (generated : string)
    : chat_state :=
  match x with
  | OChat id un content ts => handleWebSocketMessage st id un content ts now generated
  | OUserJoined un _ => handleWebSocketUserChange st (UJoined un) now generated
  | OUserLeft un _ => handleWebSocketUserChange st (ULeft un) now generated
  | OUserList users => handleWebSocketUserChange st (UList users) now generated
  | OTyping un it _ => handleWebSocketTyping st un it
  | _ => st
  end.

End ChatClient.

(** ** Server: registry invariants *)
Module ServerFacts.
Import Server.



Lemma set_delete_In x y r : In y (set_delete x r) <-> In y r /\ y <> x.
Proof.
  unfold set_delete. rewrite filter_In, negb_true_iff, Nat.eqb_neq. tauto.
Qed.

Lemma set_delete_notin x r : ~ In x r -> set_delete x r = r.
Proof.
  induction r as [|y r IH]; simpl; intros H; [done|].
  destruct (Nat.eqb y x) eqn:E.
  - apply Nat.eqb_eq in E. subst. exfalso. auto.
  - simpl. f_equal. auto.
Qed.

Lemma set_delete_nodup x r : List.NoDup r -> List.NoDup (set_delete x r).
Proof. apply List.NoDup_filter. Qed.

Lemma set_add_In x y r : In y (set_add x r) <-> y = x \/ In y r.
Proof.
  unfold set_add. destruct (existsb (Nat.eqb x) r) eqn:E.
  - apply existsb_exists in E as [z [Hz Hxz]]. apply Nat.eqb_eq in Hxz. subst.
    split; [auto|]. intros [->|]; auto.
  - rewrite in_app_iff. simpl. intuition.
Qed.

Lemma set_add_notin x r : ~ In x r -> set_add x r = r ++ [x].
Proof.
  intros H. unfold set_add. destruct (existsb (Nat.eqb x) r) eqn:E; [|done].
  apply existsb_exists in E as [z [Hz Hxz]]. apply Nat.eqb_eq in Hxz. subst. done.
Qed.

Lemma set_add_nodup x r : List.NoDup r -> List.NoDup (set_add x r).
Proof.
  intros Hr. destruct (existsb (Nat.eqb x) r) eqn:E.
  - unfold set_add. rewrite E. done.
  - rewrite set_add_notin.
    + apply List.NoDup_app.
      * done.
      * constructor; [simpl; tauto | constructor].
      * intros a Ha [<-|[]]. apply Bool.not_true_iff_false in E. apply E.
        apply existsb_exists. exists x. split; [done|]. apply Nat.eqb_refl.
    + intros Hin. apply Bool.not_true_iff_false in E. apply E.
      apply existsb_exists. exists x. split; [done|]. apply Nat.eqb_refl.
Qed.

Lemma Inv_ext s s' :
  rooms s' = rooms s -> clients s' = clients s -> Inv s -> Inv s'.
Proof.
  intros Hr Hc [H1 H2 H3]. split; rewrite ?Hr, ?Hc; eauto.
Qed.

Lemma Inv_notin s ws c r :
  Inv s -> rooms s !! c = Some r ->
  (forall cl, clients s !! ws = Some cl -> roomCode cl <> c) -> ~ In ws r.
Proof.
  intros HI Hr Hn Hin. destruct (inv_owner s HI c r ws Hr Hin) as [cl [Hcl Hcode]].
  exact (Hn cl Hcl Hcode).
Qed.

Lemma prune_notin ws r : r <> [] -> ~ In ws r -> prune ws (Some r) = Some r.
Proof.
  intros Hne Hn. simpl. rewrite set_delete_notin by done.
  destruct r; [done|]. reflexivity.
Qed.

Lemma leave_clients s ws now : clients (fst (leaveCurrentRoom s ws now)) = clients s.
Proof.
  unfold leaveCurrentRoom. repeat case_match; reflexivity.
Qed.

Lemma leave_open s ws now : openConns (fst (leaveCurrentRoom s ws now)) = openConns s.
Proof.
  unfold leaveCurrentRoom. repeat case_match; reflexivity.
Qed.

Lemma leave_rooms s ws now c :
  Inv s -> rooms (fst (leaveCurrentRoom s ws now)) !! c = prune ws (rooms s !! c).
Proof.
  intros HI. unfold leaveCurrentRoom.
  destruct (clients s !! ws) as [cl|] eqn:Hc.
  - destruct (rooms s !! roomCode cl) as [r|] eqn:Hr.
    + destruct (decide (c = roomCode cl)) as [->|Hne].
      * rewrite Hr. simpl.
        destruct (Nat.eqb (length (set_delete ws r)) 0); simpl;
          [apply lookup_delete_eq | apply lookup_insert_eq].
      * assert (Hrc : rooms s !! c = None \/ exists r0, rooms s !! c = Some r0)
          by (destruct (rooms s !! c); eauto).
        assert (Hkeep : rooms s !! c = prune ws (rooms s !! c)).
        { destruct Hrc as [-> | [r0 Hr0]]; [done|]. rewrite Hr0. symmetry.
          apply prune_notin; [eapply inv_nonempty; eauto|].
          eapply Inv_notin; eauto. intros cl' Hcl'. congruence. }
        destruct (Nat.eqb (length (set_delete ws r)) 0); simpl.
        -- rewrite lookup_delete_ne by congruence. exact Hkeep.
        -- rewrite lookup_insert_ne by congruence. exact Hkeep.
    + simpl. destruct (rooms s !! c) as [r0|] eqn:Hr0; [|done].
      symmetry. apply prune_notin; [eapply inv_nonempty; eauto|].
      eapply Inv_notin; eauto. intros cl' Hcl'. congruence.
  - simpl. destruct (rooms s !! c) as [r0|] eqn:Hr0; [|done].
    symmetry. apply prune_notin; [eapply inv_nonempty; eauto|].
    eapply Inv_notin; eauto. intros cl' Hcl'. congruence.
Qed.

Lemma prune_Some ws o r :
  prune ws o = Some r -> exists r0, o = Some r0 /\ r = set_delete ws r0 /\ r <> [].
Proof.
  destruct o as [r0|]; simpl; [|done].
  destruct (Nat.eqb (length (set_delete ws r0)) 0) eqn:E; [done|].
  intros [= <-]. exists r0. split; [done|]. split; [done|].
  intros Hn. rewrite Hn in E. done.
Qed.

Lemma leave_gone s ws now c r :
  Inv s -> rooms (fst (leaveCurrentRoom s ws now)) !! c = Some r -> ~ In ws r.
Proof.
  intros HI. rewrite leave_rooms by done. intros Hp.
  destruct (prune_Some _ _ _ Hp) as [r0 [_ [-> _]]].
  rewrite set_delete_In. tauto.
Qed.

Lemma leave_Inv s ws now : Inv s -> Inv (fst (leaveCurrentRoom s ws now)).
Proof.
  intros HI. split.
  - intros c r. rewrite leave_rooms by done. intros Hp.
    destruct (prune_Some _ _ _ Hp) as [r0 [_ [_ Hne]]]. done.
  - intros c r x. rewrite leave_rooms, leave_clients by done. intros Hp Hx.
    destruct (prune_Some _ _ _ Hp) as [r0 [Hr0 [-> _]]].
    apply set_delete_In in Hx as [Hx _]. eapply inv_owner; eauto.
  - intros c r. rewrite leave_rooms by done. intros Hp.
    destruct (prune_Some _ _ _ Hp) as [r0 [Hr0 [-> _]]].
    apply set_delete_nodup. eapply inv_nodup; eauto.
Qed.

Lemma leave_gone_all s ws now :
  Inv s -> forall c r, rooms (fst (leaveCurrentRoom s ws now)) !! c = Some r -> ~ In ws r.
Proof. intros HI c r. apply leave_gone. done. Qed.


Lemma join_state s ws m code name now :
  mroomCode m = Some code -> musername m = Some name -> code <> ""%string ->
  name <> ""%string ->
  fst (handleJoinRoom s ws m now) = joined (fst (leaveCurrentRoom s ws now)) ws code name now.
Proof.
  intros Hc Hn Hc' Hn'. unfold handleJoinRoom. rewrite Hc, Hn.
  apply String.eqb_neq in Hc', Hn'. rewrite Hc', Hn'. simpl.
  destruct (leaveCurrentRoom s ws now) as [s1 o1]. reflexivity.
Qed.

Lemma joined_Inv s1 ws code name now :
  Inv s1 -> (forall c r, rooms s1 !! c = Some r -> ~ In ws r) ->
  Inv (joined s1 ws code name now).
Proof.
  intros HI Hgone. unfold joined. split; simpl.
  - intros c r. destruct (decide (c = code)) as [->|Hne].
    + rewrite lookup_insert_eq. intros [= <-] Hn.
      assert (Hin : In ws (set_add ws (default [] (rooms s1 !! code))))
        by (apply set_add_In; auto).
      rewrite Hn in Hin. done.
    + rewrite lookup_insert_ne by congruence. eapply inv_nonempty; eauto.
  - intros c r x Hr Hx. destruct (decide (x = ws)) as [->|Hxw].
    + destruct (decide (c = code)) as [->|Hne].
      * exists (mkClient name code now). rewrite lookup_insert_eq. done.
      * rewrite lookup_insert_ne in Hr by congruence. exfalso. eapply Hgone; eauto.
    + rewrite lookup_insert_ne by congruence.
      destruct (decide (c = code)) as [->|Hne].
      * rewrite lookup_insert_eq in Hr. injection Hr as <-.
        apply set_add_In in Hx as [->|Hx]; [congruence|].
        destruct (rooms s1 !! code) as [r1|] eqn:E; simpl in Hx; [|done].
        eapply inv_owner; eauto.
      * rewrite lookup_insert_ne in Hr by congruence. eapply inv_owner; eauto.
  - intros c r. destruct (decide (c = code)) as [->|Hne].
    + rewrite lookup_insert_eq. intros [= <-]. apply set_add_nodup.
      destruct (rooms s1 !! code) as [r1|] eqn:E; simpl; [|constructor].
      eapply inv_nodup; eauto.
    + rewrite lookup_insert_ne by congruence. eapply inv_nodup; eauto.
Qed.

Lemma join_Inv s ws m now : Inv s -> Inv (fst (handleJoinRoom s ws m now)).
Proof.
  intros HI.
  destruct (mroomCode m) as [code|] eqn:Hc; [|unfold handleJoinRoom; rewrite Hc; done].
  destruct (musername m) as [name|] eqn:Hn;
    [|unfold handleJoinRoom; rewrite Hc, Hn; done].
  destruct (String.eqb code "" || String.eqb name "")%bool eqn:E.
  - unfold handleJoinRoom. rewrite Hc, Hn, E. done.
  - apply Bool.orb_false_iff in E as [E1 E2].
    apply String.eqb_neq in E1, E2.
    rewrite (join_state s ws m code name now) by done.
    apply joined_Inv; [apply leave_Inv; done | apply leave_gone_all; done].
Qed.

Lemma ping_Inv s ws now : Inv s -> Inv (fst (handlePing s ws now)).
Proof.
  intros HI. unfold handlePing. destruct (clients s !! ws) as [cl|] eqn:Hc; simpl; [|done].
  split; simpl.
  - apply (inv_nonempty s HI).
  - intros c r x Hr Hx. destruct (decide (x = ws)) as [->|Hxw].
    + rewrite lookup_insert_eq.
      destruct (inv_owner s HI c r ws Hr Hx) as [cl' [Hcl' Hcode]].
      rewrite Hc in Hcl'. injection Hcl' as <-. eexists. split; [done|]. done.
    + rewrite lookup_insert_ne by congruence. eapply inv_owner; eauto.
  - apply (inv_nodup s HI).
Qed.

Lemma chat_state s ws m now g : fst (handleChatMessage s ws m now g) = s.
Proof. unfold handleChatMessage. repeat case_match; reflexivity. Qed.

Lemma typing_state s ws m now : fst (handleTyping s ws m now) = s.
Proof. unfold handleTyping. repeat case_match; reflexivity. Qed.

Lemma disconnection_state s ws now :
  fst (handleDisconnection s ws now) =
  mkServer (rooms (fst (leaveCurrentRoom s ws now))) (delete ws (clients s)) (openConns s).
Proof.
  unfold handleDisconnection. destruct (clients s !! ws) as [cl|] eqn:Hc.
  - pose proof (leave_clients s ws now) as Hcl. pose proof (leave_open s ws now) as Hop.
    destruct (leaveCurrentRoom s ws now) as [s1 o]. simpl in *. rewrite Hcl, Hop. done.
  - unfold leaveCurrentRoom. rewrite Hc. destruct s. reflexivity.
Qed.

Lemma disconnection_Inv s ws now : Inv s -> Inv (fst (handleDisconnection s ws now)).
Proof.
  intros HI. rewrite disconnection_state.
  pose proof (leave_Inv s ws now HI) as HI1.
  pose proof (leave_clients s ws now) as Hcl.
  split; simpl.
  - apply (inv_nonempty _ HI1).
  - intros c r x Hr Hx. assert (x <> ws) by (intros ->; exact (leave_gone s ws now c r HI Hr Hx)).
    rewrite lookup_delete_ne by congruence. rewrite <- Hcl. eapply inv_owner; eauto.
  - apply (inv_nodup _ HI1).
Qed.

Lemma step_Inv s e now g : Inv s -> Inv (fst (step s e now g)).
Proof.
  intros HI. destruct e as [ws|ws f|ws|]; simpl.
  - eapply Inv_ext; [| |exact HI]; reflexivity.
  - destruct f as [m|]; simpl; [|done]. unfold handleMessage.
    destruct (mtype m) as [t|]; [|done].
    destruct (String.eqb t "join_room"); [apply join_Inv; done|].
    destruct (String.eqb t "chat_message"); [rewrite chat_state; done|].
    destruct (String.eqb t "typing"); [rewrite typing_state; done|].
    destruct (String.eqb t "ping"); [apply ping_Inv; done|]. done.
  - apply disconnection_Inv. eapply Inv_ext; [| |exact HI]; reflexivity.
  - eapply Inv_ext; [| |exact HI]; reflexivity.
Qed.

Lemma reachable_Inv s : reachable s -> Inv s.
Proof.
  induction 1 as [|s e now g _ IH].
  - split; simpl; intros c r; rewrite lookup_empty; done.
  - apply step_Inv. done.
Qed.

(** *** Dispatch *)
Lemma frame_join s ws m now g :
  mtype m = Some "join_room"%string ->
  step s (EFrame ws (FParsed m)) now g = handleJoinRoom s ws m now.
Proof. intros H. simpl. unfold handleMessage. rewrite H. reflexivity. Qed.

Lemma frame_chat s ws m now g :
  mtype m = Some "chat_message"%string ->
  step s (EFrame ws (FParsed m)) now g = handleChatMessage s ws m now g.
Proof. intros H. simpl. unfold handleMessage. rewrite H. reflexivity. Qed.

Lemma frame_typing s ws m now g :
  mtype m = Some "typing"%string ->
  step s (EFrame ws (FParsed m)) now g = handleTyping s ws m now.
Proof. intros H. simpl. unfold handleMessage. rewrite H. reflexivity. Qed.

Lemma frame_unknown s ws m now g :
  known_type (mtype m) = false -> step s (EFrame ws (FParsed m)) now g = (s, []).
Proof.
  intros H. simpl. unfold handleMessage. unfold known_type in H.
  destruct (mtype m) as [t|]; [|done].
  apply Bool.orb_false_iff in H as [H H4]. apply Bool.orb_false_iff in H as [H H3].
  apply Bool.orb_false_iff in H as [H1 H2]. rewrite H1, H2, H3, H4. done.
Qed.

(** *** Broadcasts *)
Lemma broadcast_all (s : server) (code : string) (r : list conn) (m : outmsg) :
  rooms s !! code = Some r ->
  broadcastToRoom s code m None = map (fun c => (c, m)) (List.filter (is_open s) r).
Proof.
  intros Hr. unfold broadcastToRoom. rewrite Hr. clear Hr.
  induction r as [|c r IH]; simpl in *; [done|].
  destruct (is_open s c); simpl; rewrite IH; done.
Qed.

Lemma broadcast_excl (s : server) (code : string) (r : list conn) (m : outmsg) (ws : conn) :
  rooms s !! code = Some r ->
  broadcastToRoom s code m (Some ws) =
  map (fun c => (c, m)) (List.filter (fun c => negb (Nat.eqb c ws) && is_open s c)%bool r).
Proof.
  intros Hr. unfold broadcastToRoom. rewrite Hr. clear Hr.
  induction r as [|c r IH]; simpl; [done|].
  destruct (Nat.eqb_spec c ws) as [->|Hne].
  - rewrite bool_decide_true by done. simpl. done.
  - rewrite bool_decide_false by congruence. simpl.
    destruct (is_open s c); simpl; rewrite IH; done.
Qed.

Lemma broadcast_msg s code m ex c x :
  In (c, x) (broadcastToRoom s code m ex) -> x = m.
Proof.
  unfold broadcastToRoom. destruct (rooms s !! code) as [r|]; [|done].
  rewrite in_flat_map. intros [c' [_ H]].
  destruct (negb (bool_decide (Some c' = ex)) && is_open s c')%bool; simpl in H;
    [destruct H as [[= _ ->]|[]]; done | done].
Qed.

Lemma send_msg s ws m c x : In (c, x) (send s ws m) -> c = ws /\ x = m.
Proof.
  unfold send. destruct (is_open s ws); simpl; [|done].
  intros [[= -> ->]|[]]. done.
Qed.

(** *** Membership lists *)
Lemma filter_filter_sub {A} (f g : A -> bool) (l : list A) :
  (forall x, f x = true -> g x = true) ->
  List.filter f (List.filter g l) = List.filter f l.
Proof.
  intros Hfg. induction l as [|x l IH]; simpl; [done|].
  destruct (g x) eqn:Eg; simpl; destruct (f x) eqn:Ef; rewrite ?IH; try done.
  rewrite (Hfg x Ef) in Eg. done.
Qed.

Lemma namesakes_delete cs ws name r :
  namesakes cs ws name (set_delete ws r) = namesakes cs ws name r.
Proof.
  unfold namesakes, set_delete. f_equal. apply filter_filter_sub.
  intros x Hx. apply andb_prop in Hx as [Hx _]. exact Hx.
Qed.

Lemma count_omap_gen (h : conn -> option string) (p : conn -> bool) name r :
  (forall x, In x r -> p x = match h x with Some u => String.eqb u name | None => false end) ->
  count_occ string_dec (omap h r) name = length (List.filter p r).
Proof.
  induction r as [|c r IH]; intros Hp; simpl; [done|].
  rewrite (Hp c (or_introl eq_refl)).
  assert (IH' := IH (fun x Hx => Hp x (or_intror Hx))).
  change (list_omap conn string h r) with (omap h r).
  destruct (h c) as [u|]; simpl; [|exact IH'].
  destruct (string_dec u name) as [<-|Hn].
  - rewrite String.eqb_refl. simpl. rewrite IH'. done.
  - apply String.eqb_neq in Hn. rewrite Hn. exact IH'.
Qed.

Lemma count_omap cs ws v name r :
  (forall x, In x r -> x <> ws) ->
  count_occ string_dec (omap (fun c => username <$> (<[ws := v]> cs) !! c) r) name
  = namesakes cs ws name r.
Proof.
  intros Hr. unfold namesakes. apply count_omap_gen.
  intros x Hx. assert (Hxw : x <> ws) by auto.
  rewrite lookup_insert_ne by congruence.
  rewrite (proj2 (Nat.eqb_neq x ws) Hxw).
  destruct (cs !! x); reflexivity.
Qed.

End ServerFacts.

(** ** Client: facts *)
Module ClientFacts.
Import Client.

Lemma cstep_constants st e :
  reconnectDelay (cstep st e) = reconnectDelay st /\
  maxReconnectAttempts (cstep st e) = maxReconnectAttempts st.
Proof.
  destruct e; simpl;
    unfold connect, handleOpen, handleClose, attemptReconnect, fireReconnectTimer,
      disconnect, connectRejected, sendMessage, set_socket, set_connected,
      set_attempts, set_heartbeat, set_timers;
    repeat (case_match; simpl); auto.
Qed.

Lemma creachable_constants st :
  creachable st -> reconnectDelay st = 1000 /\ maxReconnectAttempts st = 5.
Proof.
  induction 1 as [|st e _ [IH1 IH2]]; [split; reflexivity|].
  destruct (cstep_constants st e) as [H1 H2]. rewrite H1, H2. done.
Qed.

End ClientFacts.

(** ** Claims about the server *)
Module ServerClaims.
Import Server ServerFacts Scenarios.

(** C1: a chat message from a joined session with content that is not
    empty after trimming is broadcast to every open member of the room,
    the sender included; every recipient gets the same message, carrying
    the inbound id (or the generated one), the trimmed content and the
    server timestamp. *)
Theorem C1_chat_broadcast_whole_room (s : server) (ws : conn) (cl : client)
    (r : list conn) (m : inmsg) (content : string) (now : Z) (g : string) :
  clients s !! ws = Some cl -> rooms s !! roomCode cl = Some r -> In ws r ->
  mtype m = Some "chat_message"%string -> mcontent m = Some content ->
  trim content <> ""%string ->
  let msg := OChat (pick_id (mid m) g) (username cl) (trim content) now in
  step s (EFrame ws (FParsed m)) now g =
    (s, map (fun c => (c, msg)) (List.filter (is_open s) r)) /\
  (is_open s ws = true -> In (ws, msg) (snd (step s (EFrame ws (FParsed m)) now g))).
Proof.
  intros Hc Hr Hin Ht Hm Htr msg.
  assert (Hstep : step s (EFrame ws (FParsed m)) now g =
                  (s, map (fun c => (c, msg)) (List.filter (is_open s) r))).
  { rewrite frame_chat by done. unfold handleChatMessage. rewrite Hc, Hm.
    apply String.eqb_neq in Htr. rewrite Htr. f_equal. apply broadcast_all. done. }
  split; [done|]. intros Hop. rewrite Hstep. simpl.
  apply in_map_iff. exists ws. split; [done|]. apply filter_In. done.
Qed.

Lemma C1_witness :
  step demo_AB (EFrame 1%nat (FParsed (chat_msg (" hello" ++ nbsp)%string))) 5 "gen" =
  (demo_AB, [(1%nat, OChat "gen" "A" "hello" 5); (2%nat, OChat "gen" "A" "hello" 5)]).
Proof.
  rewrite (proj1 (C1_chat_broadcast_whole_room demo_AB 1%nat (mkClient "A" "AB12CD" 0)
            [1%nat; 2%nat] (chat_msg (" hello" ++ nbsp)%string) (" hello" ++ nbsp)%string 5 "gen"
            ltac:(vm_compute; reflexivity) ltac:(vm_compute; reflexivity)
            ltac:(simpl; auto) ltac:(reflexivity) ltac:(reflexivity)
            ltac:(vm_compute; discriminate))).
  vm_compute. reflexivity.
Defined.

(** C2: no room of a reachable registry is empty (a room is deleted with
    its last member); when the last member disconnects or joins another
    room its room code is absent afterwards; and a join to an absent code
    creates a room holding only the joining session. *)
Theorem C2_room_deleted_with_last_member (s : server) :
  reachable s ->
  (forall c r, rooms s !! c = Some r -> r <> []) /\
  (forall ws cl now g, clients s !! ws = Some cl -> rooms s !! roomCode cl = Some [ws] ->
     rooms (fst (step s (EClose ws) now g)) !! roomCode cl = None) /\
  (forall ws cl m code name now g, clients s !! ws = Some cl ->
     rooms s !! roomCode cl = Some [ws] ->
     mtype m = Some "join_room"%string -> mroomCode m = Some code ->
     musername m = Some name -> code <> ""%string -> name <> ""%string ->
     code <> roomCode cl ->
     rooms (fst (step s (EFrame ws (FParsed m)) now g)) !! roomCode cl = None) /\
  (forall ws m code name now g,
     mtype m = Some "join_room"%string -> mroomCode m = Some code ->
     musername m = Some name -> code <> ""%string -> name <> ""%string ->
     rooms s !! code = None ->
     rooms (fst (step s (EFrame ws (FParsed m)) now g)) !! code = Some [ws]).
Proof.
  intros Hreach. pose proof (reachable_Inv s Hreach) as HI.
  split; [exact (inv_nonempty s HI)|]. split; [|split].
  - intros ws cl now g Hc Hr. simpl. rewrite disconnection_state. simpl.
    rewrite leave_rooms by (eapply Inv_ext; [| |exact HI]; reflexivity).
    simpl. rewrite Hr. unfold prune, set_delete. simpl. rewrite Nat.eqb_refl. done.
  - intros ws cl m code name now g Hc Hr Ht Hcode Hname Hc' Hn' Hne.
    rewrite frame_join by done. rewrite (join_state s ws m code name now) by done.
    unfold joined. simpl. rewrite lookup_insert_ne by congruence.
    rewrite leave_rooms by done. rewrite Hr.
    unfold prune, set_delete. simpl. rewrite Nat.eqb_refl. done.
  - intros ws m code name now g Ht Hcode Hname Hc' Hn' Hnone.
    rewrite frame_join by done. rewrite (join_state s ws m code name now) by done.
    unfold joined. simpl. rewrite lookup_insert_eq.
    rewrite leave_rooms by done. rewrite Hnone. done.
Qed.

Lemma C2_witness :
  rooms (fst (step demo_A (EClose 1%nat) 0 "")) !! "AB12CD"%string = None.
Proof.
  apply (proj1 (proj2 (C2_room_deleted_with_last_member demo_A
           ltac:(cbv [demo_A run fold_left]; repeat apply reach_step; apply reach_init)))
           1%nat (mkClient "A" "AB12CD" 0) 0 "");
    vm_compute; reflexivity.
Defined.

(** C3: in a reachable registry a connection is a member of at most one
    room; a join first runs the full leave processing on the previous room
    (every other room ends up as [prune] leaves it, so an emptied room is
    deleted), then the session is in the target room and in no other. *)
Theorem C3_one_room_per_session (s : server) :
  reachable s ->
  (forall ws c1 c2 r1 r2, rooms s !! c1 = Some r1 -> rooms s !! c2 = Some r2 ->
     In ws r1 -> In ws r2 -> c1 = c2) /\
  (forall ws m code name now g,
     mtype m = Some "join_room"%string -> mroomCode m = Some code ->
     musername m = Some name -> code <> ""%string -> name <> ""%string ->
     let s' := fst (step s (EFrame ws (FParsed m)) now g) in
     reachable s' /\
     (forall c, c <> code -> rooms s' !! c = prune ws (rooms s !! c)) /\
     (exists r, rooms s' !! code = Some r /\ In ws r) /\
     (forall c r, rooms s' !! c = Some r -> In ws r -> c = code)).
Proof.
  intros Hreach. pose proof (reachable_Inv s Hreach) as HI. split.
  - intros ws c1 c2 r1 r2 H1 H2 I1 I2.
    destruct (inv_owner s HI c1 r1 ws H1 I1) as [cl1 [Hc1 E1]].
    destruct (inv_owner s HI c2 r2 ws H2 I2) as [cl2 [Hc2 E2]].
    rewrite Hc1 in Hc2. injection Hc2 as <-. congruence.
  - intros ws m code name now g Ht Hcode Hname Hc' Hn' s'.
    split; [apply reach_step; done|].
    unfold s'. rewrite frame_join by done.
    rewrite (join_state s ws m code name now) by done. unfold joined. simpl.
    split; [|split].
    + intros c Hne. rewrite lookup_insert_ne by congruence. apply leave_rooms. done.
    + rewrite lookup_insert_eq. eexists. split; [done|]. apply set_add_In. left. done.
    + intros c r Hr Hin. destruct (decide (c = code)) as [->|Hne]; [done|].
      rewrite lookup_insert_ne in Hr by congruence.
      exfalso. exact (leave_gone s ws now c r HI Hr Hin).
Qed.

Lemma C3_witness :
  rooms (fst (step demo_AB (EFrame 1%nat (FParsed (join_msg "XYZ789" "A"))) 0 ""))
    !! "AB12CD"%string = prune 1%nat (rooms demo_AB !! "AB12CD"%string).
Proof.
  apply (proj1 (proj2 (proj2 (C3_one_room_per_session demo_AB
           ltac:(cbv [demo_AB run fold_left]; repeat apply reach_step; apply reach_init))
           1%nat (join_msg "XYZ789" "A") "XYZ789" "A" 0 ""
           eq_refl eq_refl eq_refl ltac:(discriminate) ltac:(discriminate)))).
  discriminate.
Defined.

(** C4 (counterexample): the server accepts a join whose room code and
    username both fail the client's validation ([validateRoomCode],
    [validateUsername]): the session is inserted under the code as sent,
    and no error is sent. *)
Lemma C4_counterexample :
  validateRoomCode (Some "ab"%string) = false /\
  validateUsername (Some "a!"%string) = false /\
  step demo_one (EFrame 1%nat (FParsed (join_msg "ab" "a!"))) 0 "" =
    (mkServer {["ab"%string := [1%nat]]} {[1%nat := mkClient "a!" "ab" 0]} {[1%nat]},
     [(1%nat, ORoomJoined "ab" "a!"); (1%nat, OUserList ["a!"%string]);
      (1%nat, OUserList ["a!"%string])]).
Proof.
  split; [reflexivity|]. split; [reflexivity|]. vm_compute. reflexivity.
Qed.

(** C4 (amended): the join handler only checks that the room code and the
    username are present and non-empty.  If one is missing or empty, the
    requester gets the error "Room code and username are required" and the
    registry is unchanged; otherwise the session is registered under the
    code and name exactly as sent and inserted into that room. *)
Theorem C4_join_checks_presence_only (s : server) (ws : conn) (m : inmsg)
    (now : Z) (g : string) :
  mtype m = Some "join_room"%string ->
  ((truthy (mroomCode m) = false \/ truthy (musername m) = false) ->
     step s (EFrame ws (FParsed m)) now g =
       (s, sendError s ws "Room code and username are required" now)) /\
  (forall code name, mroomCode m = Some code -> musername m = Some name ->
     code <> ""%string -> name <> ""%string ->
     clients (fst (step s (EFrame ws (FParsed m)) now g)) !! ws = Some (mkClient name code now) /\
     exists r, rooms (fst (step s (EFrame ws (FParsed m)) now g)) !! code = Some r /\ In ws r).
Proof.
  intros Ht. rewrite frame_join by done. split.
  - intros Hf. unfold handleJoinRoom.
    destruct (mroomCode m) as [code|]; [|done].
    destruct (musername m) as [name|]; [|done].
    simpl in Hf. destruct Hf as [Hf|Hf]; apply negb_false_iff in Hf; rewrite Hf;
      [done|]. rewrite Bool.orb_true_r. done.
  - intros code name Hcode Hname Hc' Hn'.
    rewrite (join_state s ws m code name now) by done. unfold joined. simpl.
    rewrite !lookup_insert_eq. split; [done|].
    eexists. split; [done|]. apply set_add_In. left. done.
Qed.

Lemma C4_witness :
  clients (fst (step demo_one (EFrame 1%nat (FParsed (join_msg "ab" "a!"))) 0 ""))
    !! 1%nat = Some (mkClient "a!" "ab" 0).
Proof.
  apply (proj1 (proj2 (C4_join_checks_presence_only demo_one 1%nat (join_msg "ab" "a!") 0 ""
           eq_refl) "ab" "a!" eq_refl eq_refl ltac:(discriminate) ltac:(discriminate))).
Defined.

(** C6: a typing event from a joined session goes to every other open
    member of its room and never back to the sender. *)
Theorem C6_typing_excludes_origin (s : server) (ws : conn) (cl : client)
    (r : list conn) (m : inmsg) (now : Z) (g : string) :
  clients s !! ws = Some cl -> rooms s !! roomCode cl = Some r -> In ws r ->
  mtype m = Some "typing"%string ->
  let msg := OTyping (username cl) (misTyping m) now in
  step s (EFrame ws (FParsed m)) now g =
    (s, map (fun c => (c, msg))
          (List.filter (fun c => negb (Nat.eqb c ws) && is_open s c)%bool r)) /\
  (forall c, In c r -> c <> ws -> is_open s c = true ->
     In (c, msg) (snd (step s (EFrame ws (FParsed m)) now g))) /\
  (forall x, ~ In (ws, x) (snd (step s (EFrame ws (FParsed m)) now g))).
Proof.
  intros Hc Hr Hin Ht msg.
  assert (Hstep : step s (EFrame ws (FParsed m)) now g =
    (s, map (fun c => (c, msg))
          (List.filter (fun c => negb (Nat.eqb c ws) && is_open s c)%bool r))).
  { rewrite frame_typing by done. unfold handleTyping. rewrite Hc. f_equal.
    apply broadcast_excl. done. }
  split; [done|]. rewrite Hstep. simpl. split.
  - intros c Hc' Hne Hop. apply in_map_iff. exists c. split; [done|].
    apply filter_In. split; [done|]. rewrite Hop, (proj2 (Nat.eqb_neq c ws) Hne). done.
  - intros x Hx. apply in_map_iff in Hx as [c [Heq Hc']]. injection Heq as -> _.
    apply filter_In in Hc' as [_ Hb]. rewrite Nat.eqb_refl in Hb. discriminate.
Qed.

Lemma C6_witness :
  snd (step demo_AB (EFrame 1%nat (FParsed typing_msg)) 5 "") =
  [(2%nat, OTyping "A" (Some true) 5)].
Proof.
  rewrite (proj1 (C6_typing_excludes_origin demo_AB 1%nat (mkClient "A" "AB12CD" 0)
            [1%nat; 2%nat] typing_msg 5 ""
            ltac:(vm_compute; reflexivity) ltac:(vm_compute; reflexivity)
            ltac:(simpl; auto) ltac:(reflexivity))).
  vm_compute. reflexivity.
Defined.

(** C7 (counterexample): a well-formed message of an unknown type from an
    open connection gets no error notice at all. *)
Lemma C7_counterexample :
  is_open demo_one 1%nat = true /\
  step demo_one (EFrame 1%nat (FParsed unknown_msg)) 0 "" = (demo_one, []).
Proof. split; vm_compute; reflexivity. Qed.

(** C7 (amended): an un-parseable frame is answered with the error notice
    "Invalid message format" sent to its sender only; a parsed message with
    a missing or unknown type is only logged, nothing is sent.  In both
    cases the server state is unchanged, so the connection stays open. *)
Theorem C7_malformed_frames (s : server) (ws : conn) (m : inmsg) (now : Z) (g : string) :
  step s (EFrame ws FInvalid) now g = (s, sendError s ws "Invalid message format" now) /\
  (known_type (mtype m) = false -> step s (EFrame ws (FParsed m)) now g = (s, [])).
Proof. split; [reflexivity|]. apply frame_unknown. Qed.

Lemma C7_witness :
  step demo_one (EFrame 1%nat (FParsed unknown_msg)) 0 "" = (demo_one, []).
Proof. apply (proj2 (C7_malformed_frames demo_one 1%nat unknown_msg 0 "")). reflexivity. Defined.

(** C9 (counterexample): two sessions that join the same room under the
    same valid name are both listed, so the name occurs twice. *)
Lemma C9_counterexample :
  validateRoomCode (Some "ABC123"%string) = true /\
  validateUsername (Some "Alice"%string) = true /\
  getRoomUsers demo_twins "ABC123" = ["Alice"%string; "Alice"%string].
Proof. split; [reflexivity|]. split; [reflexivity|]. vm_compute. reflexivity. Qed.

(** C9 (amended): after a join, the room's member list contains the
    joining name once for the joining session plus once for every other
    member of the room already registered under that name; so exactly once
    when no other member uses the name. *)
Theorem C9_join_lists_name_per_session (s : server) (ws : conn) (m : inmsg)
    (code name : string) (now : Z) (g : string) :
  reachable s -> mtype m = Some "join_room"%string -> mroomCode m = Some code ->
  musername m = Some name -> code <> ""%string -> name <> ""%string ->
  count_occ string_dec (getRoomUsers (fst (step s (EFrame ws (FParsed m)) now g)) code) name
  = S (namesakes (clients s) ws name (default [] (rooms s !! code))).
Proof.
  intros Hreach Ht Hcode Hname Hc' Hn'. pose proof (reachable_Inv s Hreach) as HI.
  rewrite frame_join by done. rewrite (join_state s ws m code name now) by done.
  unfold getRoomUsers, joined. simpl. rewrite lookup_insert_eq.
  pose proof (leave_clients s ws now) as Hcl.
  pose proof (leave_rooms s ws now code HI) as Hlr.
  pose proof (leave_gone s ws now code) as Hgone.
  set (s1 := fst (leaveCurrentRoom s ws now)) in *.
  assert (Hnot : ~ In ws (default [] (rooms s1 !! code))).
  { destruct (rooms s1 !! code) as [r1|] eqn:E; simpl; [apply Hgone; done | auto]. }
  rewrite set_add_notin by done. rewrite omap_app, count_occ_app.
  assert (Hw : omap (fun c => username <$> (<[ws := mkClient name code now]> (clients s1)) !! c)
                 [ws] = [name]).
  { simpl. rewrite lookup_insert_eq. reflexivity. }
  rewrite Hw. rewrite count_occ_cons_eq by done. simpl.
  rewrite count_omap by (intros x Hx ->; done).
  rewrite Hcl, Hlr. rewrite Nat.add_1_r. f_equal.
  destruct (rooms s !! code) as [r|]; simpl; [|done].
  rewrite <- (namesakes_delete (clients s) ws name r).
  destruct (Nat.eqb (length (set_delete ws r)) 0) eqn:E; simpl; [|done].
  apply Nat.eqb_eq, length_zero_iff_nil in E. rewrite E. done.
Qed.

Lemma C9_witness :
  count_occ string_dec
    (getRoomUsers (fst (step demo_AB (EFrame 2%nat (FParsed (join_msg "AB12CD" "A"))) 0 ""))
       "AB12CD") "A"%string = 2%nat.
Proof.
  rewrite (C9_join_lists_name_per_session demo_AB 2%nat (join_msg "AB12CD" "A") "AB12CD" "A" 0 ""
             ltac:(cbv [demo_AB run fold_left]; repeat apply reach_step; apply reach_init)
             eq_refl eq_refl eq_refl ltac:(discriminate) ltac:(discriminate)).
  vm_compute. reflexivity.
Defined.

(** C10: chat and typing broadcasts carry the name the session registered
    at its last join: two inbound messages that differ only in their
    [username] field are handled identically, and every chat or typing
    message produced is attributed to the sender's registered name. *)
Theorem C10_username_from_registration (s : server) (ws : conn) (m : inmsg)
    (u : option string) (now : Z) (g : string) :
  mtype m = Some "chat_message"%string \/ mtype m = Some "typing"%string ->
  step s (EFrame ws (FParsed (with_username m u))) now g = step s (EFrame ws (FParsed m)) now g /\
  (forall c x un, In (c, x) (snd (step s (EFrame ws (FParsed m)) now g)) ->
     sender_name x = Some un -> exists cl, clients s !! ws = Some cl /\ un = username cl).
Proof.
  intros [Ht|Ht].
  - rewrite (frame_chat s ws (with_username m u)) by exact Ht.
    rewrite frame_chat by done. split; [reflexivity|].
    intros c x un. unfold handleChatMessage, sendError.
    destruct (clients s !! ws) as [cl|] eqn:Hc.
    + destruct (mcontent m) as [content|];
        [destruct (String.eqb (trim content) "")|]; simpl; intros Hin Hs.
      * apply send_msg in Hin as [_ ->]. discriminate.
      * apply broadcast_msg in Hin. subst x. simpl in Hs. injection Hs as <-. eauto.
      * apply send_msg in Hin as [_ ->]. discriminate.
    + simpl. intros Hin Hs. apply send_msg in Hin as [_ ->]. discriminate.
  - rewrite (frame_typing s ws (with_username m u)) by exact Ht.
    rewrite frame_typing by done. split; [reflexivity|].
    intros c x un. unfold handleTyping.
    destruct (clients s !! ws) as [cl|] eqn:Hc; simpl; [|done].
    intros Hin Hs. apply broadcast_msg in Hin. subst x. simpl in Hs.
    injection Hs as <-. eauto.
Qed.

Lemma C10_witness :
  step demo_AB (EFrame 1%nat (FParsed (with_username (chat_msg "hi") (Some "B"%string)))) 5 "g"
  = step demo_AB (EFrame 1%nat (FParsed (chat_msg "hi"))) 5 "g".
Proof.
  apply (proj1 (C10_username_from_registration demo_AB 1%nat (chat_msg "hi") (Some "B"%string) 5 "g"
           (or_introl eq_refl))).
Defined.

End ServerClaims.

(** ** Claims about the client connection manager *)
Module ClientClaims.
Import Client ClientFacts.

(** C5 (code bug): after an abnormal close the reconnect timer only logs.
    Firing it never creates a socket, sends nothing and does not switch to
    the simulation mode; from a connected client whose transport closes
    with code 1006, the client ends closed, with the one socket and the one
    [join_room] of the original connection, still not in simulation mode. *)
Theorem C5_reconnect_timer_only_logs :
  (forall st, socketsCreated (cstep st CETimer) = socketsCreated st /\
              sent (cstep st CETimer) = sent st /\
              socket (cstep st CETimer) = socket st /\
              isConnected (cstep st CETimer) = isConnected st /\
              useWebSocket (cstep st CETimer) = useWebSocket st) /\
  (let st := crun init [CEConnect "ABC123" "Alice"; CEOpen; CEClose 1006; CETimer] in
   socket st = Some CLOSED /\ isConnected st = false /\ socketsCreated st = 1%nat /\
   sent st = ["join_room"%string] /\ useWebSocket st = true /\ timers st = [] /\
   reconnectAttempts st = 1).
Proof.
  split.
  - intros st. simpl. unfold fireReconnectTimer.
    destruct (timers st); simpl; repeat split.
  - vm_compute. repeat split.
Qed.

(** C8: when a reachable client closes abnormally with [n - 1] attempts
    made, [1 <= n <= 5], it counts attempt [n] and schedules it after
    [1000 * 2 ^ (n - 1)] milliseconds, with no cap. *)
Theorem C8_backoff_delay (st : client_state) (n code : Z) :
  creachable st -> reconnectAttempts st = n - 1 -> 1 <= n <= 5 -> code <> 1000 ->
  reconnectAttempts (cstep st (CEClose code)) = n /\
  timers (cstep st (CEClose code)) = timers st ++ [1000 * 2 ^ (n - 1)].
Proof.
  intros Hreach Ha Hn Hcode.
  destruct (creachable_constants st Hreach) as [Hd Hm].
  simpl. unfold handleClose. simpl.
  rewrite Ha, Hm. rewrite (proj2 (Z.eqb_neq code 1000) Hcode).
  rewrite (proj2 (Z.ltb_lt (n - 1) 5)) by lia. simpl.
  unfold attemptReconnect, backoff. simpl. rewrite Ha, Hd.
  replace (n - 1 + 1) with n by lia. split; reflexivity.
Qed.

Lemma C8_witness :
  timers (cstep (cstep (cstep init (CEConnect "ABC123" "Alice")) CEOpen) (CEClose 1006))
  = [1000].
Proof.
  rewrite (proj2 (C8_backoff_delay (cstep (cstep init (CEConnect "ABC123" "Alice")) CEOpen) 1 1006
             ltac:(apply creach_step, creach_step, creach_init)
             ltac:(reflexivity) ltac:(lia) ltac:(discriminate))).
  reflexivity.
Defined.

End ClientClaims.

(** ** Server: further facts *)
Module ServerMoreFacts.
Import Server ServerFacts.

Lemma stale_spec s now c :
  c ∈ stale s now <-> exists cl, clients s !! c = Some cl /\ now - lastSeen cl > 5 * 60 * 1000.
Proof.
  unfold stale. rewrite elem_of_dom. split.
  - intros [cl Hcl]. apply map_lookup_filter_Some in Hcl as [H1 H2]. eauto.
  - intros [cl [H1 H2]]. exists cl. apply map_lookup_filter_Some. done.
Qed.

Lemma send_open s ws m c x : In (c, x) (send s ws m) -> c ∈ openConns s.
Proof.
  unfold send, is_open. destruct (bool_decide (ws ∈ openConns s)) eqn:E; simpl; [|intros []].
  intros [[= -> _]|[]]. apply bool_decide_eq_true in E. done.
Qed.

Lemma broadcast_open s code m ex c x :
  In (c, x) (broadcastToRoom s code m ex) -> c ∈ openConns s.
Proof.
  unfold broadcastToRoom. destruct (rooms s !! code) as [r|]; [|intros []].
  rewrite in_flat_map. intros [c' [_ H]].
  destruct (negb (bool_decide (Some c' = ex)) && is_open s c')%bool eqn:E;
    simpl in H; [|done].
  destruct H as [[= -> _]|[]]. apply andb_prop in E as [_ E].
  unfold is_open in E. apply bool_decide_eq_true in E. done.
Qed.

Lemma leave_targets s ws now c x :
  In (c, x) (snd (leaveCurrentRoom s ws now)) -> c ∈ openConns s.
Proof.
  unfold leaveCurrentRoom. destruct (clients s !! ws) as [cl|]; [|intros []].
  destruct (rooms s !! roomCode cl) as [r|]; [|intros []].
  destruct (Nat.eqb (length (set_delete ws r)) 0); simpl; [intros []|].
  intros H. apply in_app_or in H as [H|H]; apply broadcast_open in H; exact H.
Qed.

Lemma join_open s ws m now :
  openConns (fst (handleJoinRoom s ws m now)) = openConns s /\
  forall c x, In (c, x) (snd (handleJoinRoom s ws m now)) -> c ∈ openConns s.
Proof.
  unfold handleJoinRoom.
  destruct (mroomCode m) as [code|]; [|split; [done|intros c x H; eapply send_open; exact H]].
  destruct (musername m) as [name|]; [|split; [done|intros c x H; eapply send_open; exact H]].
  destruct (String.eqb code "" || String.eqb name "")%bool;
    [split; [done|intros c x H; eapply send_open; exact H]|].
  pose proof (leave_targets s ws now) as Ht. pose proof (leave_open s ws now) as Hop.
  destruct (leaveCurrentRoom s ws now) as [s1 o1]. simpl in *. split; [done|].
  intros c x H.
  repeat (apply in_app_or in H as [H|H]);
    first [exact (Ht c x H) | apply send_open in H; rewrite <- Hop; exact H
          | apply broadcast_open in H; rewrite <- Hop; exact H].
Qed.

Lemma onMessage_open s ws f now g :
  openConns (fst (onMessage s ws f now g)) = openConns s /\
  forall c x, In (c, x) (snd (onMessage s ws f now g)) -> c ∈ openConns s.
Proof.
  destruct f as [m|]; simpl; [|split; [done|intros c x H; eapply send_open; exact H]].
  unfold handleMessage. destruct (mtype m) as [t|]; [|split; [done|intros c x []]].
  destruct (String.eqb t "join_room"); [apply join_open|].
  destruct (String.eqb t "chat_message").
  { unfold handleChatMessage. split; [repeat case_match; done|].
    intros c x H. repeat case_match; simpl in H;
      first [apply send_open in H; exact H | apply broadcast_open in H; exact H]. }
  destruct (String.eqb t "typing").
  { unfold handleTyping. split; [case_match; done|].
    intros c x H. case_match; simpl in H; [apply broadcast_open in H; exact H|done]. }
  destruct (String.eqb t "ping"); [|split; [done|intros c x []]].
  unfold handlePing. split; [case_match; done|].
  intros c x H. case_match; simpl in H; apply send_open in H; exact H.
Qed.

Lemma disconnection_targets s ws now c x :
  In (c, x) (snd (handleDisconnection s ws now)) -> c ∈ openConns s.
Proof.
  unfold handleDisconnection. destruct (clients s !! ws); [|intros []].
  pose proof (leave_targets s ws now c x) as Ht.
  destruct (leaveCurrentRoom s ws now) as [s1 o]. exact Ht.
Qed.

Lemma omap_length_total {A B} (h : A -> option B) (r : list A) :
  (forall x, In x r -> is_Some (h x)) -> length (omap h r) = length r.
Proof.
  induction r as [|x r IH]; intros Hr; simpl; [done|].
  change (list_omap A B h r) with (omap h r).
  destruct (Hr x (or_introl eq_refl)) as [y Hy]. rewrite Hy. simpl.
  rewrite IH; [done|]. intros z Hz. apply Hr. right. done.
Qed.

Lemma omap_ext_in {A B} (h1 h2 : A -> option B) (r : list A) :
  (forall x, In x r -> h1 x = h2 x) -> omap h1 r = omap h2 r.
Proof.
  induction r as [|x r IH]; intros Hr; simpl; [done|].
  change (list_omap A B h1 r) with (omap h1 r). change (list_omap A B h2 r) with (omap h2 r).
  rewrite (Hr x (or_introl eq_refl)), IH; [done|]. intros z Hz. apply Hr. right. done.
Qed.

Lemma filter_fst_broadcast (s : server) (r : list conn) (m : outmsg) (ws : conn) :
  List.NoDup r -> In ws r -> is_open s ws = true ->
  List.filter (fun p => Nat.eqb (fst p) ws) (map (fun c => (c, m)) (List.filter (is_open s) r))
  = [(ws, m)].
Proof.
  induction r as [|c r IH]; intros Hnd Hin Ho; [destruct Hin|].
  inversion Hnd as [|? ? Hc Hnd']. subst.
  destruct Hin as [->|Hin].
  - simpl. rewrite Ho. simpl. rewrite Nat.eqb_refl.
    f_equal. clear IH Hnd Hnd'.
    induction r as [|c r IH]; simpl; [done|].
    destruct (is_open s c); simpl;
      [rewrite (proj2 (Nat.eqb_neq c ws)) by (intros ->; apply Hc; left; done)|];
      apply IH; intros H; apply Hc; right; done.
  - simpl. assert (c <> ws) by (intros ->; done).
    destruct (is_open s c); simpl;
      [rewrite (proj2 (Nat.eqb_neq c ws)) by done|]; apply IH; done.
Qed.

Lemma filter_fst_none {A} (ws : conn) (o : list (conn * A)) :
  (forall c x, In (c, x) o -> c <> ws) -> List.filter (fun p => Nat.eqb (fst p) ws) o = [].
Proof.
  induction o as [|[c x] o IH]; intros Ho; simpl; [done|].
  rewrite (proj2 (Nat.eqb_neq c ws)) by (apply (Ho c x); left; done).
  apply IH. intros c' x' H. apply (Ho c' x'). right. done.
Qed.

Lemma filter_fst_send s ws m :
  is_open s ws = true -> List.filter (fun p => Nat.eqb (fst p) ws) (send s ws m) = [(ws, m)].
Proof. intros Ho. unfold send. rewrite Ho. simpl. rewrite Nat.eqb_refl. done. Qed.

Lemma broadcast_excl_other s code m ws c x :
  In (c, x) (broadcastToRoom s code m (Some ws)) -> c <> ws.
Proof.
  unfold broadcastToRoom. destruct (rooms s !! code) as [r|]; [|intros []].
  rewrite in_flat_map. intros [c' [_ H]].
  destruct (negb (bool_decide (Some c' = Some ws)) && is_open s c')%bool eqn:E;
    simpl in H; [|done].
  destruct H as [[= -> _]|[]]. apply andb_prop in E as [E _].
  apply negb_true_iff, bool_decide_eq_false in E. congruence.
Qed.

Lemma leave_targets_other s ws now c x :
  Inv s -> In (c, x) (snd (leaveCurrentRoom s ws now)) -> c <> ws.
Proof.
  intros HI. pose proof (leave_gone s ws now) as Hg.
  unfold leaveCurrentRoom in *. destruct (clients s !! ws) as [cl|]; [|intros []].
  destruct (rooms s !! roomCode cl) as [r|]; [|intros []].
  destruct (Nat.eqb (length (set_delete ws r)) 0); simpl; [intros []|].
  simpl in Hg. intros H ->.
  assert (Hr : rooms (mkServer (<[roomCode cl := set_delete ws r]> (rooms s)) (clients s)
                (openConns s)) !! roomCode cl = Some (set_delete ws r))
    by (simpl; apply lookup_insert_eq).
  apply in_app_or in H as [H|H]; rewrite (broadcast_all _ _ _ _ Hr) in H;
    apply in_map_iff in H as [c' [[= <- _] Hc']]; apply filter_In in Hc' as [Hc' _];
    exact (Hg _ _ HI (lookup_insert_eq _ _ _) Hc').
Qed.

Lemma getRoomUsers_delete rs cs o o' code ws r :
  rs !! code = Some r -> ~ In ws r ->
  getRoomUsers (mkServer rs (delete ws cs) o) code = getRoomUsers (mkServer rs cs o') code.
Proof.
  intros Hr Hn. unfold getRoomUsers. simpl. rewrite Hr.
  apply omap_ext_in. intros x Hx. rewrite lookup_delete_ne; [done|].
  intros ->. done.
Qed.

End ServerMoreFacts.

(** ** Server: further properties *)
Module ServerExtras.
Import Server Scenarios ServerFacts ServerMoreFacts.

(** X2: a connection that pings at time [t] is not closed by a cleanup
    tick that runs within five minutes of [t]. *)
Theorem X2_ping_keeps_connection (s : server) (ws : conn) (m : inmsg) (t now : Z) (g : string) :
  mtype m = Some "ping"%string -> ws ∈ openConns s -> now - t <= 5 * 60 * 1000 ->
  ws ∈ openConns (fst (step (fst (step s (EFrame ws (FParsed m)) t g)) ECleanup now g)).
Proof.
  intros Ht Hws Hnow. simpl. unfold handleMessage. rewrite Ht. simpl.
  unfold handlePing. destruct (clients s !! ws) as [cl|] eqn:Hc; simpl;
    apply elem_of_difference; (split; [done|]); rewrite stale_spec;
    intros [cl' [Hcl' Hold]]; simpl in Hcl'.
  - rewrite lookup_insert_eq in Hcl'. injection Hcl' as <-. simpl in Hold. lia.
  - congruence.
Qed.

Lemma X2_witness :
  1%nat ∈ openConns (fst (step (fst (step demo_AB
    (EFrame 1%nat (FParsed (mkIn (Some "ping"%string) None None None None None))) 0 ""))
    ECleanup 300000 "")).
Proof.
  exact (X2_ping_keeps_connection demo_AB 1%nat
           (mkIn (Some "ping"%string) None None None None None) 0 300000 ""
           eq_refl ltac:(refine (bool_decide_unpack _ _); vm_compute; first [exact I | reflexivity]) ltac:(lia)).
Defined.

(** X4: the server never sends to a connection that is not open: every
    message a step emits goes to a connection open in the resulting state
    (in particular never to the connection whose [close] is handled). *)
Theorem X4_outputs_go_to_open (s : server) (e : event) (now : Z) (g : string)
    (c : conn) (x : outmsg) :
  In (c, x) (snd (step s e now g)) -> c ∈ openConns (fst (step s e now g)).
Proof.
  destruct e as [ws|ws f|ws|]; simpl.
  - intros H. apply send_open in H. exact H.
  - destruct (onMessage_open s ws f now g) as [Hop Ht]. rewrite Hop. apply Ht.
  - rewrite disconnection_state. simpl. apply disconnection_targets.
  - intros [].
Qed.

Lemma X4_witness :
  2%nat ∈ openConns (fst (step demo_AB (EFrame 1%nat (FParsed (chat_msg "hi"))) 0 "")).
Proof.
  exact (X4_outputs_go_to_open demo_AB (EFrame 1%nat (FParsed (chat_msg "hi"))) 0 ""
           2%nat (OChat "" "A" "hi" 0) ltac:(vm_compute; tauto)).
Defined.

(** X5: once the [close] of a connection is handled, the server forgets its
    session, no longer counts it as open, lists it in no room, and keeps
    every other session as it was. *)
Theorem X5_close_forgets_session (s : server) (ws : conn) (now : Z) (g : string) :
  reachable s ->
  let s' := fst (step s (EClose ws) now g) in
  clients s' !! ws = None /\ (ws ∉ openConns s') /\
  (forall c r, rooms s' !! c = Some r -> ~ In ws r) /\
  (forall c, c <> ws -> clients s' !! c = clients s !! c).
Proof.
  intros Hreach. pose proof (reachable_Inv s Hreach) as HI.
  set (s0 := mkServer (rooms s) (clients s) (openConns s ∖ {[ws]})).
  assert (HI0 : Inv s0) by (eapply Inv_ext; [| |exact HI]; reflexivity).
  simpl. fold s0. rewrite disconnection_state. simpl.
  split; [apply lookup_delete_eq|]. split; [set_solver|].
  split; [intros c r; apply leave_gone; exact HI0|].
  intros c Hne. apply lookup_delete_ne. congruence.
Qed.

Lemma X5_witness :
  clients (fst (step demo_AB (EClose 1%nat) 0 "")) !! 1%nat = None /\
  clients (fst (step demo_AB (EClose 1%nat) 0 "")) !! 2%nat = clients demo_AB !! 2%nat.
Proof.
  destruct (X5_close_forgets_session demo_AB 1%nat 0 "" ltac:(cbv [demo_AB run fold_left]; repeat apply reach_step; apply reach_init)) as [H1 [_ [_ H4]]].
  split; [exact H1 | apply H4; discriminate].
Defined.

(** X6: when a session leaves by closing and its room keeps other members,
    the room keeps exactly the other members, and each of them that is open
    receives [user_left] with the departed name, then the user list of the
    resulting state (which no longer counts the departed session). *)
Theorem X6_close_notifies_remaining (s : server) (ws : conn) (cl : client) (r : list conn)
    (now : Z) (g : string) :
  reachable s -> clients s !! ws = Some cl -> rooms s !! roomCode cl = Some r ->
  set_delete ws r <> [] ->
  let s' := fst (step s (EClose ws) now g) in
  rooms s' !! roomCode cl = Some (set_delete ws r) /\
  snd (step s (EClose ws) now g) =
    map (fun c => (c, OUserLeft (username cl) now)) (List.filter (is_open s') (set_delete ws r))
    ++ map (fun c => (c, OUserList (getRoomUsers s' (roomCode cl))))
         (List.filter (is_open s') (set_delete ws r)).
Proof.
  intros Hreach Hc Hr Hne s'.
  assert (E : Nat.eqb (length (set_delete ws r)) 0 = false).
  { apply Nat.eqb_neq. intros Hl. apply length_zero_iff_nil in Hl. done. }
  assert (Hstep : step s (EClose ws) now g =
    (mkServer (<[roomCode cl := set_delete ws r]> (rooms s)) (delete ws (clients s))
       (openConns s ∖ {[ws]}),
     broadcastToRoom (mkServer (<[roomCode cl := set_delete ws r]> (rooms s)) (clients s)
        (openConns s ∖ {[ws]})) (roomCode cl) (OUserLeft (username cl) now) None
     ++ broadcastToRoom (mkServer (<[roomCode cl := set_delete ws r]> (rooms s)) (clients s)
        (openConns s ∖ {[ws]})) (roomCode cl)
        (OUserList (getRoomUsers (mkServer (<[roomCode cl := set_delete ws r]> (rooms s))
           (clients s) (openConns s ∖ {[ws]})) (roomCode cl))) None)).
  { simpl. unfold handleDisconnection. simpl. rewrite Hc.
    unfold leaveCurrentRoom. simpl. rewrite Hc, Hr, E. reflexivity. }
  unfold s'. rewrite Hstep. cbn [fst snd]. split; [apply lookup_insert_eq|].
  rewrite (getRoomUsers_delete _ _ _ (openConns s ∖ {[ws]}) _ _ (set_delete ws r));
    [|apply lookup_insert_eq | rewrite set_delete_In; tauto].
  rewrite !(broadcast_all _ _ (set_delete ws r)) by (simpl; apply lookup_insert_eq).
  reflexivity.
Qed.

Lemma X6_witness :
  rooms (fst (step demo_AB (EClose 1%nat) 0 "")) !! "AB12CD"%string = Some [2%nat].
Proof.
  exact (proj1 (X6_close_notifies_remaining demo_AB 1%nat (mkClient "A" "AB12CD" 0)
           [1%nat; 2%nat] 0 "" ltac:(cbv [demo_AB run fold_left]; repeat apply reach_step; apply reach_init) ltac:(vm_compute; reflexivity)
           ltac:(vm_compute; reflexivity) ltac:(vm_compute; discriminate))).
Defined.

(** X7: a successful join sends the joining connection (if open) exactly
    three messages, in order: [room_joined], then the user list twice, once
    by the direct send and once more by the room-wide broadcast; nothing
    from the leave of its previous room reaches it. *)
Theorem X7_joiner_gets_user_list_twice (s : server) (ws : conn) (m : inmsg)
    (code name : string) (now : Z) (g : string) :
  reachable s -> ws ∈ openConns s -> mtype m = Some "join_room"%string ->
  mroomCode m = Some code -> musername m = Some name ->
  code <> ""%string -> name <> ""%string ->
  let p := step s (EFrame ws (FParsed m)) now g in
  List.filter (fun q => Nat.eqb (fst q) ws) (snd p) =
    [(ws, ORoomJoined code name); (ws, OUserList (getRoomUsers (fst p) code));
     (ws, OUserList (getRoomUsers (fst p) code))].
Proof.
  intros Hreach Hws Ht Hc Hn Hc' Hn' p. unfold p. rewrite frame_join by done.
  pose proof (reachable_Inv s Hreach) as HI.
  pose proof (leave_Inv s ws now HI) as HI1.
  pose proof (leave_gone_all s ws now HI) as Hgone.
  pose proof (leave_open s ws now) as Hop.
  pose proof (leave_targets_other s ws now) as Hother.
  unfold handleJoinRoom. rewrite Hc, Hn.
  apply String.eqb_neq in Hc', Hn'. rewrite Hc', Hn'. simpl.
  destruct (leaveCurrentRoom s ws now) as [s1 o1]. simpl in *.
  set (s2 := mkServer (<[code := set_add ws (default [] (rooms s1 !! code))]> (rooms s1))
               (<[ws := mkClient name code now]> (clients s1)) (openConns s1)).
  assert (Ho : is_open s2 ws = true).
  { unfold is_open. apply bool_decide_eq_true. simpl. rewrite Hop. done. }
  assert (Hr2 : rooms s2 !! code = Some (set_add ws (default [] (rooms s1 !! code))))
    by (simpl; apply lookup_insert_eq).
  rewrite !List.filter_app.
  rewrite (filter_fst_none ws o1) by (intros c x H; exact (Hother c x HI H)).
  rewrite !filter_fst_send by exact Ho.
  rewrite (filter_fst_none ws (broadcastToRoom s2 code _ (Some ws)))
    by (intros c x; apply broadcast_excl_other).
  rewrite (broadcast_all s2 code _ _ Hr2).
  rewrite filter_fst_broadcast; [reflexivity| |apply set_add_In; left; done|exact Ho].
  apply set_add_nodup. destruct (rooms s1 !! code) as [r1|] eqn:E; simpl; [|constructor].
  eapply inv_nodup; eauto.
Qed.

Lemma X7_witness :
  List.filter (fun q => Nat.eqb (fst q) 1%nat)
    (snd (step demo_AB (EFrame 1%nat (FParsed (join_msg "XYZ789" "A"))) 0 "")) =
  [(1%nat, ORoomJoined "XYZ789" "A");
   (1%nat, OUserList (getRoomUsers (fst (step demo_AB
              (EFrame 1%nat (FParsed (join_msg "XYZ789" "A"))) 0 "")) "XYZ789"));
   (1%nat, OUserList (getRoomUsers (fst (step demo_AB
              (EFrame 1%nat (FParsed (join_msg "XYZ789" "A"))) 0 "")) "XYZ789"))].
Proof.
  exact (X7_joiner_gets_user_list_twice demo_AB 1%nat (join_msg "XYZ789" "A") "XYZ789" "A" 0 ""
           ltac:(cbv [demo_AB run fold_left]; repeat apply reach_step; apply reach_init) ltac:(refine (bool_decide_unpack _ _); vm_compute; first [exact I | reflexivity]) eq_refl eq_refl eq_refl ltac:(discriminate) ltac:(discriminate)).
Defined.

(** X8: in a reachable state the user list of a room has one name per
    member connection: every member has a session entry, so none is skipped. *)
Theorem X8_user_list_one_name_per_member (s : server) (code : string) (r : list conn) :
  reachable s -> rooms s !! code = Some r -> length (getRoomUsers s code) = length r.
Proof.
  intros Hreach Hr. pose proof (reachable_Inv s Hreach) as HI.
  unfold getRoomUsers. rewrite Hr. apply omap_length_total.
  intros c Hc. destruct (inv_owner s HI code r c Hr Hc) as [cl [Hcl _]].
  rewrite Hcl. eexists. done.
Qed.

Lemma X8_witness :
  length (getRoomUsers demo_twins "ABC123") = 2%nat.
Proof.
  exact (X8_user_list_one_name_per_member demo_twins "ABC123" [1%nat; 2%nat]
           ltac:(cbv [demo_twins run fold_left]; repeat apply reach_step; apply reach_init) ltac:(vm_compute; reflexivity)).
Defined.

End ServerExtras.

(** ** Client: further facts *)
Module ClientMoreFacts.
Import Client ClientFacts.

Lemma handleClose_attempts st code :
  reconnectAttempts (handleClose st code) =
  if (negb (Z.eqb code 1000) && Z.ltb (reconnectAttempts st) (maxReconnectAttempts st))%bool
  then reconnectAttempts st + 1 else reconnectAttempts st.
Proof. unfold handleClose. simpl. case_match; reflexivity. Qed.

Lemma handleClose_timers st code :
  timers (handleClose st code) =
  if (negb (Z.eqb code 1000) && Z.ltb (reconnectAttempts st) (maxReconnectAttempts st))%bool
  then timers st ++ [reconnectDelay st * 2 ^ reconnectAttempts st] else timers st.
Proof.
  unfold handleClose. simpl. case_match; [|reflexivity].
  simpl. unfold backoff. simpl. repeat f_equal. lia.
Qed.

Lemma handleClose_rest st code :
  socket (handleClose st code) = Some CLOSED /\ sent (handleClose st code) = sent st /\
  socketsCreated (handleClose st code) = socketsCreated st /\
  reconnectDelay (handleClose st code) = reconnectDelay st /\
  maxReconnectAttempts (handleClose st code) = maxReconnectAttempts st.
Proof. unfold handleClose. simpl. case_match; simpl; auto. Qed.

(** One user retry that fails before the socket opens. *)
Lemma failed_round st r u code (k : nat) :
  code <> 1000 -> socket st <> Some OPEN -> reconnectDelay st = 1000 ->
  maxReconnectAttempts st = 5 -> reconnectAttempts st = Z.of_nat k -> (k <= 5)%nat ->
  let st' := crun st [CEConnect r u; CEClose code] in
  socket st' = Some CLOSED /\ reconnectDelay st' = 1000 /\ maxReconnectAttempts st' = 5 /\
  reconnectAttempts st' = Z.of_nat (Nat.min (S k) 5) /\
  timers st' = timers st ++ (if Nat.ltb k 5 then [1000 * 2 ^ Z.of_nat k] else []) /\
  sent st' = sent st /\ socketsCreated st' = S (socketsCreated st).
Proof.
  intros Hcode Hs Hd Hm Ha Hk st'. unfold st', crun. simpl fold_left.
  assert (Hc : connect st r u =
    mkClientState (Some CONNECTING) (isConnected st) (reconnectAttempts st)
      (maxReconnectAttempts st) (reconnectDelay st) (heartbeatOn st) (timers st)
      (S (socketsCreated st)) (sent st) (Some (r, u)) (webSocketConnected st) (useWebSocket st)).
  { unfold connect. rewrite bool_decide_false by done. reflexivity. }
  rewrite Hc. cbn [cstep].
  destruct (handleClose_rest (mkClientState (Some CONNECTING) (isConnected st)
      (reconnectAttempts st) (maxReconnectAttempts st) (reconnectDelay st) (heartbeatOn st)
      (timers st) (S (socketsCreated st)) (sent st) (Some (r, u)) (webSocketConnected st)
      (useWebSocket st)) code) as [H1 [H2 [H3 [H4 H5]]]].
  rewrite handleClose_attempts, handleClose_timers, H1, H2, H3, H4, H5. simpl.
  rewrite Ha, Hd, Hm. apply Z.eqb_neq in Hcode. rewrite Hcode. simpl.
  destruct (Nat.ltb_spec k 5) as [Hlt|Hge].
  - rewrite (proj2 (Z.ltb_lt _ _)) by lia. simpl.
    repeat split; try reflexivity. lia.
  - rewrite (proj2 (Z.ltb_ge _ _)) by lia. simpl.
    repeat split; try reflexivity; [lia | rewrite app_nil_r; reflexivity].
Qed.

Lemma crun_app st l1 l2 : crun st (l1 ++ l2) = crun (crun st l1) l2.
Proof. unfold crun. apply fold_left_app. Qed.

Lemma failed_rounds n st r u code (k : nat) :
  code <> 1000 -> socket st <> Some OPEN -> reconnectDelay st = 1000 ->
  maxReconnectAttempts st = 5 -> reconnectAttempts st = Z.of_nat k -> (k <= 5)%nat ->
  let st' := crun st (concat (repeat [CEConnect r u; CEClose code] n)) in
  reconnectAttempts st' = Z.of_nat (Nat.min (k + n) 5) /\
  timers st' = timers st ++ map (fun i => 1000 * 2 ^ Z.of_nat i) (seq k (Nat.min (k + n) 5 - k)) /\
  sent st' = sent st /\ socketsCreated st' = (socketsCreated st + n)%nat.
Proof.
  revert st k. induction n as [|n IH]; intros st k Hcode Hs Hd Hm Ha Hk st'.
  - unfold st'. simpl. rewrite Nat.add_0_r, Nat.min_l by lia. rewrite Nat.sub_diag.
    simpl. rewrite app_nil_r, Nat.add_0_r. auto.
  - unfold st'.
    change (concat (repeat [CEConnect r u; CEClose code] (S n)))
      with ([CEConnect r u; CEClose code] ++ concat (repeat [CEConnect r u; CEClose code] n)).
    rewrite (crun_app st [CEConnect r u; CEClose code]).
    destruct (failed_round st r u code k Hcode Hs Hd Hm Ha Hk)
      as [H1 [H2 [H3 [H4 [H5 [H6 H7]]]]]].
    destruct (IH (crun st [CEConnect r u; CEClose code]) (Nat.min (S k) 5) Hcode
      ltac:(rewrite H1; discriminate) H2 H3 H4 ltac:(lia)) as [J1 [J2 [J3 J4]]].
    rewrite J1, J2, J3, J4, H5, H6, H7. split; [f_equal; lia|]. split; [|split; [done|lia]].
    rewrite <- app_assoc. f_equal.
    destruct (Nat.ltb_spec k 5) as [Hlt|Hge].
    + rewrite Nat.min_l by lia.
      replace (Nat.min (k + S n) 5 - k)%nat with (S (Nat.min (S k + n) 5 - S k))%nat by lia.
      reflexivity.
    + rewrite Nat.min_r by lia.
      replace (Nat.min (k + S n) 5 - k)%nat with 0%nat by lia.
      replace (Nat.min (5 + n) 5 - 5)%nat with 0%nat by lia. reflexivity.
Qed.

End ClientMoreFacts.

(** ** Client: further properties *)
Module ClientExtras.
Import Client ClientFacts ClientMoreFacts.

(** X10: in every reachable client state the reconnect counter stays
    between 0 and [maxReconnectAttempts] (5): [handleClose] increments it
    only while it is below the maximum. *)
Theorem X10_attempts_bounded (st : client_state) :
  creachable st -> 0 <= reconnectAttempts st <= 5.
Proof.
  induction 1 as [|st e Hr IH]; [simpl; lia|].
  destruct (creachable_constants st Hr) as [_ Hmax].
  destruct e as [room user| |code| | |]; cbn [cstep].
  - unfold connect. case_bool_decide; simpl; [|lia].
    unfold disconnect. destruct (socket st); simpl; lia.
  - unfold handleOpen. simpl. destruct (pendingJoin st); simpl; lia.
  - rewrite handleClose_attempts. rewrite Hmax.
    destruct (negb (Z.eqb code 1000) && Z.ltb (reconnectAttempts st) 5)%bool eqn:E; [|lia].
    apply andb_prop in E as [_ E]. apply Z.ltb_lt in E. lia.
  - unfold fireReconnectTimer. destruct (timers st); simpl; lia.
  - unfold disconnect. destruct (socket st); simpl; lia.
  - simpl. lia.
Qed.

Lemma X10_witness :
  0 <= reconnectAttempts (cstep (cstep (cstep init (CEConnect "ABC123" "Alice")) CEOpen)
                            (CEClose 1006)) <= 5.
Proof.
  exact (X10_attempts_bounded _ ltac:(apply creach_step, creach_step, creach_step, creach_init)).
Defined.

(** X11: when the user's connection attempts keep failing before the
    socket opens (each [connect] followed by a [close] with a code other
    than 1000), attempt [i] (from 0) schedules one timer of [1000 * 2^i] ms
    while fewer than five have been made, and none after that; the counter
    stops at 5; every attempt creates one socket; nothing is ever sent. *)
Theorem X11_failed_connects_backoff (n : nat) (r u : string) (code : Z) :
  code <> 1000 ->
  let st := crun init (concat (repeat [CEConnect r u; CEClose code] n)) in
  timers st = map (fun i => 1000 * 2 ^ Z.of_nat i) (seq 0 (Nat.min n 5)) /\
  reconnectAttempts st = Z.of_nat (Nat.min n 5) /\ sent st = [] /\ socketsCreated st = n.
Proof.
  intros Hcode st.
  destruct (failed_rounds n init r u code 0 Hcode ltac:(discriminate) eq_refl eq_refl
              eq_refl ltac:(lia)) as [H1 [H2 [H3 H4]]].
  fold st in H1, H2, H3, H4. rewrite H1, H2, H3, H4. simpl.
  rewrite Nat.sub_0_r. auto.
Qed.

Lemma X11_witness :
  timers (crun init (concat (repeat [CEConnect "ABC123" "Alice"; CEClose 1006] 3))) =
  map (fun i => 1000 * 2 ^ Z.of_nat i) (seq 0 (Nat.min 3 5)).
Proof.
  exact (proj1 (X11_failed_connects_backoff 3 "ABC123" "Alice" 1006 ltac:(discriminate))).
Defined.

End ClientExtras.

(** ** StorageService: facts *)
Module StorageFacts.
Import Storage.

Lemma filter_all {A} (p : A -> bool) (l : list A) :
  (forall x, In x l -> p x = true) -> List.filter p l = l.
Proof.
  induction l as [|x l IH]; intros H; simpl; [done|].
  rewrite (H x (or_introl eq_refl)), IH; [done|]. intros y Hy. apply H. right. done.
Qed.

Lemma in_firstn {A} n (x : A) l : In x (firstn n l) -> In x l.
Proof.
  intros H. rewrite <- (firstn_skipn n l). apply in_or_app. left. done.
Qed.

Lemma nodup_firstn {A} n (l : list A) : List.NoDup l -> List.NoDup (firstn n l).
Proof.
  intros H. rewrite <- (firstn_skipn n l) in H. eapply List.NoDup_app_remove_r. exact H.
Qed.

Lemma nodup_map_filter {A B} (f : A -> B) (p : A -> bool) (l : list A) :
  List.NoDup (map f l) -> List.NoDup (map f (List.filter p l)).
Proof.
  induction l as [|x l IH]; intros H; simpl; [constructor|].
  inversion H as [|? ? Hx Hl]. subst.
  destruct (p x); simpl; [|auto]. constructor; [|auto].
  intros Hin. apply Hx. apply in_map_iff in Hin as [y [<- Hy]].
  apply filter_In in Hy as [Hy _]. apply in_map. done.
Qed.

Lemma remove_first_filter code l :
  List.NoDup (map rcode l) ->
  remove_first code l = List.filter (fun r => negb (String.eqb (rcode r) code)) l.
Proof.
  induction l as [|r l IH]; intros H; simpl; [done|].
  inversion H as [|? ? Hr Hl]. subst.
  destruct (String.eqb_spec (rcode r) code) as [E|E]; simpl.
  - symmetry. apply filter_all. intros x Hx.
    apply negb_true_iff, String.eqb_neq. intros Ex. apply Hr.
    rewrite E, <- Ex. apply in_map. done.
  - f_equal. auto.
Qed.

Lemma addRecentRoom_first st rd now :
  getRecentRooms (addRecentRoom st rd now) =
    mkRecent (rd_code rd) (Server.pick_id (rd_name rd) ("Room " ++ rd_code rd)) now
      (rd_username rd)
    :: firstn 9 (remove_first (rd_code rd) (getRecentRooms st)).
Proof.
  unfold addRecentRoom. remember (getRecentRooms st) as L eqn:HL.
  unfold getRecentRooms at 1. simpl recent_rooms. simpl default.
  match goal with |- context [Nat.ltb 10 ?n] => destruct (Nat.ltb_spec 10 n) as [Hlt|Hge] end;
    [reflexivity|].
  simpl in Hge. rewrite (firstn_all2 (n := 9)) by lia. reflexivity.
Qed.

Lemma addRecentRoom_list st rd now :
  List.NoDup (map rcode (getRecentRooms st)) ->
  getRecentRooms (addRecentRoom st rd now) =
    mkRecent (rd_code rd) (Server.pick_id (rd_name rd) ("Room " ++ rd_code rd)) now
      (rd_username rd)
    :: firstn 9 (List.filter (fun r => negb (String.eqb (rcode r) (rd_code rd)))
                  (getRecentRooms st)).
Proof.
  intros H. rewrite addRecentRoom_first, remove_first_filter by done. reflexivity.
Qed.

Lemma save_history st room m now g :
  getChatHistory (saveMessage st room m now g) room =
    let h := getChatHistory st room ++
               [mkStored (Server.pick_id (msg_id m) g) (msg_author m) (msg_content m)
                  (pick_timestamp (msg_timestamp m) now) (Server.pick_id (msg_type m) "user")] in
    if Nat.ltb 100 (length h) then skipn (length h - 100) h else h.
Proof. unfold getChatHistory, saveMessage, allHistory. simpl. rewrite lookup_insert_eq. done. Qed.

Lemma save_other st room room' m now g :
  room' <> room -> getChatHistory (saveMessage st room m now g) room' = getChatHistory st room'.
Proof.
  intros Hne. unfold getChatHistory, saveMessage, allHistory. simpl.
  rewrite lookup_insert_ne by congruence. done.
Qed.

Lemma save_last st room m now g :
  last (getChatHistory (saveMessage st room m now g) room) =
    Some (mkStored (Server.pick_id (msg_id m) g) (msg_author m) (msg_content m)
            (pick_timestamp (msg_timestamp m) now) (Server.pick_id (msg_type m) "user")).
Proof.
  rewrite save_history. cbv zeta.
  destruct (Nat.ltb_spec 100 (length (getChatHistory st room ++
     [mkStored (Server.pick_id (msg_id m) g) (msg_author m) (msg_content m)
        (pick_timestamp (msg_timestamp m) now) (Server.pick_id (msg_type m) "user")])))
    as [Hlt|Hge]; [|apply last_snoc].
  rewrite length_app in *. simpl length in *. rewrite skipn_app.
  replace (length (getChatHistory st room) + 1 - 100 - length (getChatHistory st room))%nat
    with 0%nat by lia.
  apply last_snoc.
Qed.

End StorageFacts.

(** ** StorageService: properties *)
Module StorageExtras.
Import Storage StorageFacts.

(** X20: [addRecentRoom] puts the room first, stamped with the current
    time, and the list it stores never exceeds ten entries. Started without
    duplicate codes, it drops the room's previous entry, keeps at most the
    nine most recent other rooms in their order, and gets no duplicate. *)
Theorem X20_recent_rooms_bounded_unique (st : store) (rd : room_data) (now : Z) :
  let l := getRecentRooms (addRecentRoom st rd now) in
  (length l <= 10)%nat /\
  hd_error l = Some (mkRecent (rd_code rd) (Server.pick_id (rd_name rd) ("Room " ++ rd_code rd))
                       now (rd_username rd)) /\
  (List.NoDup (map rcode (getRecentRooms st)) ->
   l = mkRecent (rd_code rd) (Server.pick_id (rd_name rd) ("Room " ++ rd_code rd)) now
         (rd_username rd)
       :: firstn 9 (List.filter (fun r => negb (String.eqb (rcode r) (rd_code rd)))
                     (getRecentRooms st)) /\
   List.NoDup (map rcode l)).
Proof.
  intros l. unfold l. split; [|split].
  - rewrite addRecentRoom_first. simpl. rewrite length_firstn. lia.
  - rewrite addRecentRoom_first. reflexivity.
  - intros H. rewrite addRecentRoom_list by done.
    split; [done|]. simpl. constructor.
    + intros Hin. apply in_map_iff in Hin as [y [Ey Hy]].
      apply in_firstn, filter_In in Hy as [_ Hy]. rewrite Ey, String.eqb_refl in Hy.
      discriminate.
    + rewrite <- firstn_map. apply nodup_firstn. apply nodup_map_filter. done.
Qed.

Lemma X20_witness :
  List.NoDup (map rcode (getRecentRooms (addRecentRoom
     (mkStore (Some [mkRecent "AAA111" "Room AAA111" 1 None; mkRecent "BBB222" "B" 2 None]) None)
     (mkRoomData "BBB222" (Some "Bee"%string) None) 3))).
Proof.
  exact (proj2 (proj2 (proj2 (X20_recent_rooms_bounded_unique
           (mkStore (Some [mkRecent "AAA111" "Room AAA111" 1 None; mkRecent "BBB222" "B" 2 None]) None)
           (mkRoomData "BBB222" (Some "Bee"%string) None) 3))
           ltac:(vm_compute; repeat constructor; simpl; intuition congruence))).
Defined.

(** X21: for a stored list without duplicate codes (which [addRecentRoom]
    preserves, X20), removing a room just added gives the previous list
    without that room, cut to nine entries. *)
Theorem X21_remove_after_add (st : store) (rd : room_data) (now : Z) :
  List.NoDup (map rcode (getRecentRooms st)) ->
  getRecentRooms (removeRecentRoom (addRecentRoom st rd now) (rd_code rd)) =
    firstn 9 (getRecentRooms (removeRecentRoom st (rd_code rd))).
Proof.
  intros H. unfold removeRecentRoom at 1. cbn [getRecentRooms recent_rooms default].
  rewrite addRecentRoom_list by done. simpl. rewrite String.eqb_refl. simpl.
  apply filter_all. intros x Hx. apply in_firstn, filter_In in Hx as [_ Hx]. done.
Qed.

Lemma X21_witness :
  getRecentRooms (removeRecentRoom (addRecentRoom
     (mkStore (Some [mkRecent "AAA111" "Room AAA111" 1 None; mkRecent "BBB222" "B" 2 None]) None)
     (mkRoomData "BBB222" (Some "Bee"%string) None) 3) "BBB222") =
  firstn 9 (getRecentRooms (removeRecentRoom
     (mkStore (Some [mkRecent "AAA111" "Room AAA111" 1 None; mkRecent "BBB222" "B" 2 None]) None)
     "BBB222")).
Proof.
  exact (X21_remove_after_add
           (mkStore (Some [mkRecent "AAA111" "Room AAA111" 1 None; mkRecent "BBB222" "B" 2 None]) None)
           (mkRoomData "BBB222" (Some "Bee"%string) None) 3 ltac:(vm_compute; repeat constructor; simpl; intuition congruence)).
Defined.

(** X22: [saveMessage] appends the normalised message ([id || generateId()],
    [timestamp || Date.now()], [type || 'user']) to the room's history and
    keeps its last 100 entries: the stored history is a suffix of the old one
    followed by the new message, of length [min (n + 1) 100]; the histories
    of other rooms are untouched. *)
Theorem X22_history_capped (st : store) (room : string) (m : message) (now : Z) (g : string) :
  let new := mkStored (Server.pick_id (msg_id m) g) (msg_author m) (msg_content m)
               (pick_timestamp (msg_timestamp m) now) (Server.pick_id (msg_type m) "user") in
  let h' := getChatHistory (saveMessage st room m now g) room in
  length h' = Nat.min (length (getChatHistory st room) + 1) 100 /\
  (exists pre, pre ++ h' = getChatHistory st room ++ [new]) /\
  last h' = Some new /\
  forall room', room' <> room ->
    getChatHistory (saveMessage st room m now g) room' = getChatHistory st room'.
Proof.
  intros new h'. unfold h'. rewrite save_history. fold new. cbv zeta.
  rewrite length_app. simpl length.
  destruct (Nat.ltb_spec 100 (length (getChatHistory st room) + 1)) as [Hlt|Hge].
  - cbv iota. rewrite length_skipn, length_app. simpl length. split; [lia|]. split.
    + exists (firstn (length (getChatHistory st room) + 1 - 100) (getChatHistory st room ++ [new])).
      apply firstn_skipn.
    + split; [|intros room' Hne; apply save_other; exact Hne].
      rewrite skipn_app.
      replace (length (getChatHistory st room) + 1 - 100 - length (getChatHistory st room))%nat
        with 0%nat by lia.
      apply last_snoc.
  - cbv iota. rewrite length_app. simpl length. split; [lia|]. split; [exists []; done|].
    split; [apply last_snoc|intros room' Hne; apply save_other; exact Hne].
Qed.

End StorageExtras.

(** ** ChatService listeners: facts *)
Module ChatClientFacts.
Import Server ChatClient StorageFacts.

Lemma sset_add_In x y l : In y (sset_add x l) <-> y = x \/ In y l.
Proof.
  unfold sset_add. destruct (existsb (String.eqb x) l) eqn:E.
  - apply existsb_exists in E as [z [Hz Hxz]]. apply String.eqb_eq in Hxz. subst.
    split; [auto|]. intros [->|]; auto.
  - rewrite in_app_iff. simpl. intuition.
Qed.

Lemma sset_add_nodup x l : List.NoDup l -> List.NoDup (sset_add x l).
Proof.
  intros Hl. unfold sset_add. destruct (existsb (String.eqb x) l) eqn:E; [done|].
  apply List.NoDup_app; [done|constructor; [simpl; tauto|constructor]|].
  intros a Ha [<-|[]]. apply Bool.not_true_iff_false in E. apply E.
  apply existsb_exists. exists x. split; [done|]. apply String.eqb_refl.
Qed.

Lemma sset_delete_In x y l : In y (sset_delete x l) <-> In y l /\ y <> x.
Proof.
  unfold sset_delete. rewrite filter_In, negb_true_iff, String.eqb_neq. tauto.
Qed.

Lemma sset_delete_add x l : ~ In x l -> sset_delete x (sset_add x l) = l.
Proof.
  intros Hx. unfold sset_add. destruct (existsb (String.eqb x) l) eqn:E.
  - apply existsb_exists in E as [z [Hz Hxz]]. apply String.eqb_eq in Hxz. subst. done.
  - unfold sset_delete. rewrite List.filter_app. simpl. rewrite String.eqb_refl. simpl.
    rewrite app_nil_r. apply filter_all. intros y Hy.
    apply negb_true_iff, String.eqb_neq. intros ->. done.
Qed.

Lemma fold_sset_add_In users l0 u :
  In u (fold_left (fun l v => sset_add v l) users l0) <-> In u l0 \/ In u users.
Proof.
  revert l0. induction users as [|v users IH]; intros l0; simpl; [tauto|].
  rewrite IH, sset_add_In. intuition.
Qed.

Lemma fold_sset_add_nodup users l0 :
  List.NoDup l0 -> List.NoDup (fold_left (fun l v => sset_add v l) users l0).
Proof.
  revert l0. induction users as [|v users IH]; intros l0 H; simpl; [done|].
  apply IH. apply sset_add_nodup. done.
Qed.

(** Every listener keeps [currentRoom] and [currentUser]. *)
Lemma receive_user st x now g :
  currentUser (receive st x now g) = currentUser st /\
  currentRoom (receive st x now g) = currentRoom st.
Proof.
  destruct x; simpl;
    unfold handleWebSocketMessage, handleWebSocketUserChange, handleWebSocketTyping,
      addSystemMessage, add_and_save, set_online, set_typing;
    repeat (case_match; simpl); auto.
Qed.

(** Only [typing] messages touch [typingUsers]. *)
Lemma receive_typing_other st x now g :
  (forall un it ts, x <> OTyping un it ts) ->
  typingUsers (receive st x now g) = typingUsers st.
Proof.
  intros Hx. destruct x; simpl;
    unfold handleWebSocketMessage, handleWebSocketUserChange,
      addSystemMessage, add_and_save, set_online;
    repeat (case_match; simpl); auto.
  exfalso. eapply Hx. reflexivity.
Qed.

End ChatClientFacts.

(** ** ChatService listeners: properties *)
Module ChatClientExtras.
Import Server ServerFacts ChatClient ChatClientFacts StorageFacts.

(** X15: every [chat_message] the server emits for a chat sent by session
    [ws] carries [ws]'s registered name, so a client whose [currentUser] is
    that name discards it: the sender's own echo (it already showed the
    message locally), and equally the message of another session that
    registered under the same name. *)
Theorem X15_same_name_chat_not_shown (s : server) (ws : conn) (cl : client) (m : inmsg)
    (now : Z) (g : string) (c : conn) (x : outmsg) (st : chat_state) (now' : Z) (g' : string) :
  clients s !! ws = Some cl -> mtype m = Some "chat_message"%string ->
  In (c, x) (snd (step s (EFrame ws (FParsed m)) now g)) ->
  currentUser st = username cl ->
  receive st x now' g' = st.
Proof.
  intros Hc Ht Hin Hu. rewrite frame_chat in Hin by done.
  unfold handleChatMessage in Hin. rewrite Hc in Hin.
  destruct (mcontent m) as [content|].
  - destruct (String.eqb (trim content) "").
    + apply send_msg in Hin as [_ ->]. reflexivity.
    + apply broadcast_msg in Hin. subst x. simpl. unfold handleWebSocketMessage.
      rewrite Hu, String.eqb_refl. reflexivity.
  - apply send_msg in Hin as [_ ->]. reflexivity.
Qed.

Lemma X15_witness :
  receive (mkChatState "ABC123" "Alice" [] ["Alice"%string] [] (Storage.mkStore None None))
    (OChat "" "Alice" "hi" 0) 1 "g" =
  mkChatState "ABC123" "Alice" [] ["Alice"%string] [] (Storage.mkStore None None).
Proof.
  exact (X15_same_name_chat_not_shown Scenarios.demo_twins 2%nat (mkClient "Alice" "ABC123" 0)
           (Scenarios.chat_msg "hi") 0 "" 1%nat (OChat "" "Alice" "hi" 0)
           (mkChatState "ABC123" "Alice" [] ["Alice"%string] [] (Storage.mkStore None None)) 1 "g"
           ltac:(vm_compute; reflexivity) eq_refl ltac:(vm_compute; tauto) eq_refl).
Defined.

(** X16: a chat from another name is appended to [messages] (as not own)
    and saved as the last entry of the current room's stored history;
    the online and typing sets are untouched. *)
Theorem X16_incoming_chat_stored (st : chat_state) (id un content : string) (ts now : Z)
    (g : string) :
  un <> currentUser st ->
  let st' := receive st (OChat id un content ts) now g in
  messages st' = messages st ++ [mkChatMessage (pick_id (Some id) g) un content ts "user" false] /\
  last (Storage.getChatHistory (storage st') (currentRoom st)) =
    Some (Storage.mkStored (pick_id (Some (pick_id (Some id) g)) g) (Some un) (Some content)
            (Storage.pick_timestamp (Some ts) now) "user") /\
  onlineUsers st' = onlineUsers st /\ typingUsers st' = typingUsers st.
Proof.
  intros Hne st'. unfold st'. simpl. unfold handleWebSocketMessage.
  apply String.eqb_neq in Hne. rewrite Hne. simpl.
  split; [done|]. split; [|done].
  apply save_last.
Qed.

Lemma X16_witness :
  messages (receive (mkChatState "ABC123" "Alice" [] [] [] (Storage.mkStore None None))
              (OChat "m1" "Bob" "hi" 7) 9 "g") =
  [mkChatMessage (pick_id (Some "m1"%string) "g") "Bob" "hi" 7 "user" false].
Proof.
  exact (proj1 (X16_incoming_chat_stored
           (mkChatState "ABC123" "Alice" [] [] [] (Storage.mkStore None None))
           "m1" "Bob" "hi" 7 9 "g" ltac:(discriminate))).
Defined.

(** X17: no server message ever puts the client's own name into its typing
    set; and a [typing: true] followed by a [typing: false] from a name not
    already typing leaves the state as it was. *)
Theorem X17_typing_set (st : chat_state) (x : outmsg) (now : Z) (g u : string) :
  (~ In (currentUser st) (typingUsers st) ->
   ~ In (currentUser (receive st x now g)) (typingUsers (receive st x now g))) /\
  (~ In u (typingUsers st) ->
   handleWebSocketTyping (handleWebSocketTyping st u (Some true)) u (Some false) = st).
Proof.
  split.
  - intros Hn. rewrite (proj1 (receive_user st x now g)).
    destruct x as [| | | | | |un it ts| |];
      try (rewrite receive_typing_other; [done|intros ? ? ? ?; discriminate]).
    simpl. unfold handleWebSocketTyping.
    destruct (String.eqb_spec un (currentUser st)) as [E|E]; [done|].
    destruct (default false it); simpl.
    + rewrite sset_add_In. intros [H|H]; [congruence|done].
    + rewrite sset_delete_In. intros [H _]. done.
  - intros Hu. unfold handleWebSocketTyping.
    destruct (String.eqb_spec u (currentUser st)) as [E|E].
    + rewrite (proj2 (String.eqb_eq _ _) E). done.
    + simpl. apply String.eqb_neq in E. rewrite E. simpl.
      rewrite sset_delete_add by done. destruct st. reflexivity.
Qed.

(** X18: a [user_list] replaces the online set by the listed names, each
    once (the list the server sends may repeat a name, see C9), and touches
    nothing else. *)
Theorem X18_user_list_replaces (st : chat_state) (users : list string) (now : Z) (g : string) :
  let st' := receive st (OUserList users) now g in
  (forall u, In u (onlineUsers st') <-> In u users) /\ List.NoDup (onlineUsers st') /\
  messages st' = messages st /\ typingUsers st' = typingUsers st /\ storage st' = storage st.
Proof.
  simpl. split; [|split; [apply fold_sset_add_nodup; constructor|auto]].
  intros u. rewrite fold_sset_add_In. simpl. tauto.
Qed.

End ChatClientExtras.

(** ** js/app.js helpers: facts *)
Module AppFacts.
Import Html ChatClient.

Lemma ws_seq_app l1 l2 : ws_seq l1 -> ws_seq l2 -> ws_seq (l1 ++ l2).
Proof.
  induction 1 as [|w l Hw _ IH]; intros H2; [done|].
  rewrite <- app_assoc. constructor; auto.
Qed.

Lemma ws_seq_one w : is_ws w = true -> ws_seq w.
Proof. intros H. rewrite <- (app_nil_r w). constructor; [done|constructor]. Qed.

Lemma drop_ws_suffix l : exists p, ws_seq p /\ l = p ++ drop_ws l.
Proof.
  remember (length l) as n eqn:Hn. revert l Hn.
  induction n as [n IH] using lt_wf_ind. intros l ->.
  destruct l as [|a l1]; [exists []; split; [constructor|done]|]. simpl.
  destruct (is_ws1 a) eqn:Ha.
  { destruct (IH (length l1) ltac:(simpl; lia) l1 eq_refl) as [p [Hp E]].
    exists ([a] ++ p). split; [constructor; done|]. simpl. f_equal. exact E. }
  destruct l1 as [|b l2]; [exists []; split; [constructor|done]|].
  destruct (is_ws2 a b) eqn:Hb.
  { destruct (IH (length l2) ltac:(simpl; lia) l2 eq_refl) as [p [Hp E]].
    exists ([a; b] ++ p). split; [constructor; done|]. simpl. rewrite <- E. done. }
  destruct l2 as [|c l3]; [exists []; split; [constructor|done]|].
  destruct (is_ws3 a b c) eqn:Hc.
  { destruct (IH (length l3) ltac:(simpl; lia) l3 eq_refl) as [p [Hp E]].
    exists ([a; b; c] ++ p). split; [constructor; done|]. simpl. rewrite <- E. done. }
  exists []. split; [constructor|done].
Qed.

Lemma drop_ws_rev_suffix l : exists p, ws_seq (rev p) /\ l = p ++ drop_ws_rev l.
Proof.
  remember (length l) as n eqn:Hn. revert l Hn.
  induction n as [n IH] using lt_wf_ind. intros l ->.
  destruct l as [|a l1]; [exists []; split; [constructor|done]|]. simpl.
  destruct (is_ws1 a) eqn:Ha.
  { destruct (IH (length l1) ltac:(simpl; lia) l1 eq_refl) as [p [Hp E]].
    exists (a :: p). split; [simpl; apply ws_seq_app; [done|apply ws_seq_one; done]|].
    simpl. f_equal. exact E. }
  destruct l1 as [|b l2]; [exists []; split; [constructor|done]|].
  destruct (is_ws2 b a) eqn:Hb.
  { destruct (IH (length l2) ltac:(simpl; lia) l2 eq_refl) as [p [Hp E]].
    exists (a :: b :: p). split.
    - simpl. rewrite <- app_assoc. apply ws_seq_app; [done|apply ws_seq_one; done].
    - simpl. rewrite <- E. done. }
  destruct l2 as [|c l3]; [exists []; split; [constructor|done]|].
  destruct (is_ws3 c b a) eqn:Hc.
  { destruct (IH (length l3) ltac:(simpl; lia) l3 eq_refl) as [p [Hp E]].
    exists (a :: b :: c :: p). split.
    - simpl. rewrite <- !app_assoc. apply ws_seq_app; [done|apply ws_seq_one; done].
    - simpl. rewrite <- E. done. }
  exists []. split; [constructor|done].
Qed.

Lemma drop_ws_noprefix l w r : is_ws w = true -> drop_ws l <> w ++ r.
Proof.
  intros Hw. remember (length l) as n eqn:Hn. revert l Hn.
  induction n as [n IH] using lt_wf_ind. intros l ->.
  destruct l as [|a l1]; simpl.
  { destruct w; [discriminate|done]. }
  destruct (is_ws1 a) eqn:Ha; [apply (IH (length l1)); simpl; lia|].
  destruct l1 as [|b l2].
  { destruct w as [|x [|y w']]; simpl in Hw; try discriminate; intros E; inversion E; subst;
      congruence. }
  destruct (is_ws2 a b) eqn:Hb; [apply (IH (length l2)); simpl; lia|].
  destruct l2 as [|c l3].
  { destruct w as [|x [|y [|z w']]]; simpl in Hw; try discriminate; intros E; inversion E;
      subst; congruence. }
  destruct (is_ws3 a b c) eqn:Hc; [apply (IH (length l3)); simpl; lia|].
  destruct w as [|x [|y [|z [|v w']]]]; simpl in Hw; try discriminate; intros E; inversion E;
    subst; congruence.
Qed.

Lemma drop_ws_rev_noprefix l w r : is_ws w = true -> drop_ws_rev l <> rev w ++ r.
Proof.
  intros Hw. remember (length l) as n eqn:Hn. revert l Hn.
  induction n as [n IH] using lt_wf_ind. intros l ->.
  destruct l as [|a l1]; simpl.
  { destruct w as [|x w']; [discriminate|]. simpl. destruct (rev w'); discriminate. }
  destruct (is_ws1 a) eqn:Ha; [apply (IH (length l1)); simpl; lia|].
  destruct l1 as [|b l2].
  { destruct w as [|x [|y [|z [|v w']]]]; simpl in Hw; try discriminate; intros E; inversion E; subst;
      congruence. }
  destruct (is_ws2 b a) eqn:Hb; [apply (IH (length l2)); simpl; lia|].
  destruct l2 as [|c l3].
  { destruct w as [|x [|y [|z [|v w']]]]; simpl in Hw; try discriminate; intros E; inversion E;
      subst; congruence. }
  destruct (is_ws3 c b a) eqn:Hc; [apply (IH (length l3)); simpl; lia|].
  destruct w as [|x [|y [|z [|v w']]]]; simpl in Hw; try discriminate; intros E; inversion E;
    subst; congruence.
Qed.

Lemma drop_ws_id l : (forall w r, is_ws w = true -> l <> w ++ r) -> drop_ws l = l.
Proof.
  intros H. destruct l as [|a l1]; [done|]. simpl.
  destruct (is_ws1 a) eqn:Ha; [exfalso; apply (H [a] l1); done|].
  destruct l1 as [|b l2]; [done|].
  destruct (is_ws2 a b) eqn:Hb; [exfalso; apply (H [a; b] l2); done|].
  destruct l2 as [|c l3]; [done|].
  destruct (is_ws3 a b c) eqn:Hc; [exfalso; apply (H [a; b; c] l3); done|].
  done.
Qed.

Lemma drop_ws_rev_id l : (forall w r, is_ws w = true -> l <> rev w ++ r) -> drop_ws_rev l = l.
Proof.
  intros H. destruct l as [|a l1]; [done|]. simpl.
  destruct (is_ws1 a) eqn:Ha; [exfalso; apply (H [a] l1); done|].
  destruct l1 as [|b l2]; [done|].
  destruct (is_ws2 b a) eqn:Hb; [exfalso; apply (H [b; a] l2); done|].
  destruct l2 as [|c l3]; [done|].
  destruct (is_ws3 c b a) eqn:Hc; [exfalso; apply (H [c; b; a] l3); done|].
  done.
Qed.

Lemma trim_list s :
  list_ascii_of_string (trim s) = rev (drop_ws_rev (rev (drop_ws (list_ascii_of_string s)))).
Proof. unfold trim. apply list_ascii_of_string_of_list_ascii. Qed.

Lemma trim_split s :
  exists p q, list_ascii_of_string s = p ++ list_ascii_of_string (trim s) ++ q /\
              ws_seq p /\ ws_seq q.
Proof.
  rewrite trim_list.
  destruct (drop_ws_suffix (list_ascii_of_string s)) as [p [Hp Ep]].
  set (k := drop_ws (list_ascii_of_string s)) in *.
  destruct (drop_ws_rev_suffix (rev k)) as [q [Hq Eq]].
  exists p, (rev q). split; [|done].
  rewrite Ep at 1. f_equal. rewrite <- rev_app_distr, <- Eq, rev_involutive. done.
Qed.

Lemma trim_clean s w r :
  is_ws w = true ->
  list_ascii_of_string (trim s) <> w ++ r /\ list_ascii_of_string (trim s) <> r ++ w.
Proof.
  intros Hw. rewrite trim_list.
  set (k := drop_ws (list_ascii_of_string s)).
  destruct (drop_ws_rev_suffix (rev k)) as [q [_ Eq]].
  set (m := drop_ws_rev (rev k)) in *.
  split; intros E.
  - apply (drop_ws_noprefix (list_ascii_of_string s) w (r ++ rev q) Hw). fold k.
    rewrite <- (rev_involutive k), Eq, rev_app_distr, E, app_assoc. done.
  - apply (drop_ws_rev_noprefix (rev k) w (rev r) Hw). fold m.
    rewrite <- (rev_involutive m), E, rev_app_distr. done.
Qed.

Lemma trim_idem s : trim (trim s) = trim s.
Proof.
  unfold trim at 1. set (t := list_ascii_of_string (trim s)).
  rewrite (drop_ws_id t) by (intros w r Hw; apply (trim_clean s w r Hw)).
  rewrite (drop_ws_rev_id (rev t)).
  - rewrite rev_involutive. apply string_of_list_ascii_of_string.
  - intros w r Hw E. apply (proj2 (trim_clean s w (rev r) Hw)). fold t.
    rewrite <- (rev_involutive t), E, rev_app_distr, rev_involutive. done.
Qed.

Lemma upper1_out a u : upper1 a = Some u -> forallb is_upper_alnum u = true.
Proof.
  unfold upper1. destruct (is_upper_alnum a) eqn:E.
  { intros [= <-]. simpl. rewrite E. done. }
  destruct (is_lower a) eqn:L; [|discriminate]. intros [= <-]. simpl. rewrite andb_true_r.
  revert L. destruct a as [[] [] [] [] [] [] [] []]; vm_compute; intros; first [reflexivity | discriminate].
Qed.

Lemma upper2_out a b u : upper2 a b = Some u -> forallb is_upper_alnum u = true.
Proof. unfold upper2. intros H. repeat case_match; simplify_eq; reflexivity. Qed.

Lemma upper3_out a b c u : upper3 a b c = Some u -> forallb is_upper_alnum u = true.
Proof. unfold upper3. intros H. repeat case_match; simplify_eq; reflexivity. Qed.

Lemma upper_alnum_out l u : upper_alnum l = Some u -> forallb is_upper_alnum u = true.
Proof.
  remember (length l) as n eqn:Hn. revert l u Hn.
  induction n as [n IH] using lt_wf_ind. intros l u ->.
  destruct l as [|a l1]; simpl; [intros [= <-]; done|].
  destruct (upper1 a) as [u1|] eqn:H1.
  { destruct (upper_alnum l1) as [u'|] eqn:E; [|discriminate]. intros [= <-].
    rewrite forallb_app, (upper1_out a u1 H1). apply (IH (length l1) ltac:(simpl; lia) l1);
      done. }
  destruct l1 as [|b l2]; [discriminate|].
  destruct (upper2 a b) as [u2|] eqn:H2.
  { destruct (upper_alnum l2) as [u'|] eqn:E; [|discriminate]. intros [= <-].
    rewrite forallb_app, (upper2_out a b u2 H2). apply (IH (length l2) ltac:(simpl; lia) l2);
      done. }
  destruct l2 as [|c l3]; [discriminate|].
  destruct (upper3 a b c) as [u3|] eqn:H3; [|discriminate].
  destruct (upper_alnum l3) as [u'|] eqn:E; [|discriminate]. intros [= <-].
  rewrite forallb_app, (upper3_out a b c u3 H3). apply (IH (length l3) ltac:(simpl; lia) l3);
    done.
Qed.

Lemma upper_alnum_self u : forallb is_upper_alnum u = true -> upper_alnum u = Some u.
Proof.
  induction u as [|a u IH]; simpl; [done|]. intros H. apply andb_prop in H as [Ha Hu].
  unfold upper1 at 1. rewrite Ha. simpl. rewrite IH; done.
Qed.

Lemma validateRoomCode_upper u :
  forallb is_upper_alnum u = true -> length u = 6%nat ->
  validateRoomCode (Some (string_of_list_ascii u)) = true.
Proof.
  intros Hu Hl. unfold validateRoomCode.
  rewrite list_ascii_of_string_of_list_ascii, upper_alnum_self, Hl by done.
  destruct u; [discriminate|reflexivity].
Qed.

Lemma validateRoomCode_nonempty c : validateRoomCode (Some c) = true -> c <> ""%string.
Proof. unfold validateRoomCode. intros H ->. discriminate. Qed.

Lemma validateUsername_trim u :
  validateUsername (Some u) = true -> validateUsername (Some (trim u)) = true /\ trim u <> ""%string.
Proof.
  unfold validateUsername. rewrite trim_idem.
  intros H. apply andb_prop in H as [H H4]. apply andb_prop in H as [H H3].
  apply andb_prop in H as [_ H2].
  assert (Hne : trim u <> ""%string).
  { intros E. rewrite E in H2. discriminate. }
  split; [|done]. apply String.eqb_neq in Hne. rewrite Hne, H2, H3, H4. done.
Qed.
Lemma replace_all_app c r l1 l2 :
  replace_all c r (l1 ++ l2) = replace_all c r l1 ++ replace_all c r l2.
Proof. unfold replace_all. apply flat_map_app. Qed.

Lemma escape_five_char a :
  replace_all "'" "&#39;" (replace_all "034" "&quot;" (replace_all ">" "&gt;"
    (replace_all "<" "&lt;" (replace_all "&" "&amp;" [a])))) = escape_char a.
Proof. destruct a as [[] [] [] [] [] [] [] []]; reflexivity. Qed.

Lemma escape_five l :
  replace_all "'" "&#39;" (replace_all "034" "&quot;" (replace_all ">" "&gt;"
    (replace_all "<" "&lt;" (replace_all "&" "&amp;" l)))) = flat_map escape_char l.
Proof.
  induction l as [|a l IH]; [reflexivity|].
  change (a :: l) with ([a] ++ l). rewrite !replace_all_app, IH, escape_five_char.
  reflexivity.
Qed.

Lemma unescape_char a r : unescapeHTML (escape_char a ++ r) = a :: unescapeHTML r.
Proof. destruct a as [[] [] [] [] [] [] [] []]; reflexivity. Qed.

Lemma unescape_escape l : unescapeHTML (flat_map escape_char l) = l.
Proof. induction l as [|a l IH]; simpl; [done|]. rewrite unescape_char, IH. done. Qed.

Lemma escape_char_safe a : forallb (fun b => negb (is_markup b)) (escape_char a) = true.
Proof. destruct a as [[] [] [] [] [] [] [] []]; reflexivity. Qed.

Lemma escape_safe l : forallb (fun b => negb (is_markup b)) (flat_map escape_char l) = true.
Proof.
  induction l as [|a l IH]; simpl; [done|]. rewrite forallb_app, escape_char_safe, IH. done.
Qed.

End AppFacts.

(** ** js/app.js helpers: properties *)
Module AppExtras.
Import Server ServerFacts Html ChatClient AppFacts.

(** X24: [escapeHTML] is undone by HTML's decoding of its five entities, so
    a message is displayed as typed, and its result contains none of the
    characters [<], [>], the double quote and the single quote ([undefined]
    and the empty string give the empty string). *)
Theorem X24_escape_round_trip (str : option string) :
  unescapeHTML (list_ascii_of_string (escapeHTML str)) = list_ascii_of_string (default ""%string str) /\
  forallb (fun a => negb (is_markup a)) (list_ascii_of_string (escapeHTML str)) = true.
Proof.
  destruct str as [s|]; [|split; reflexivity]. simpl default. unfold escapeHTML.
  destruct (String.eqb_spec s "") as [->|Hne]; [split; reflexivity|].
  rewrite list_ascii_of_string_of_list_ascii, escape_five.
  split; [apply unescape_escape | apply escape_safe].
Qed.

(** X26: the room code and name [ChatService.connect] keeps (and sends in
    [join_room]) are already normalised: the code is its own upper-case form
    and consists of [[A-Z0-9]] only, the name is its own [trim]; both pass
    the validators again, and the server's join handler registers the
    session under exactly that code and name. *)
Theorem X26_connect_inputs_accepted (r u c n : string) :
  connect_inputs r u = Some (c, n) ->
  upper_alnum (list_ascii_of_string c) = Some (list_ascii_of_string c) /\ trim n = n /\
  validateRoomCode (Some c) = true /\ validateUsername (Some n) = true /\
  forall s ws now g,
    clients (fst (step s (EFrame ws (FParsed (mkIn (Some "join_room"%string) (Some c) (Some n)
               None None None))) now g)) !! ws = Some (mkClient n c now).
Proof.
  unfold connect_inputs.
  destruct (validateRoomCode (Some r) && validateUsername (Some u))%bool eqn:E; [|discriminate].
  destruct (upper_alnum (list_ascii_of_string r)) as [cu|] eqn:Hu; [|discriminate].
  intros [= <- <-]. apply andb_prop in E as [Er Eu].
  assert (Hout := upper_alnum_out _ _ Hu).
  assert (Hlen : length cu = 6%nat).
  { unfold validateRoomCode in Er. rewrite Hu in Er.
    apply andb_prop in Er as [_ Er]. apply Nat.eqb_eq. exact Er. }
  assert (Hr' := validateRoomCode_upper cu Hout Hlen).
  destruct (validateUsername_trim u Eu) as [Eu' Hne].
  split; [rewrite list_ascii_of_string_of_list_ascii; apply upper_alnum_self; done|].
  split; [apply trim_idem|]. split; [done|]. split; [done|].
  intros s ws now g. rewrite frame_join by reflexivity.
  rewrite (join_state s ws _ (string_of_list_ascii cu) (trim u) now) by
    first [reflexivity | apply validateRoomCode_nonempty; done | done].
  unfold joined. simpl. apply lookup_insert_eq.
Qed.

Lemma X26_witness :
  clients (fst (step Scenarios.demo_one (EFrame 1%nat (FParsed (mkIn (Some "join_room"%string)
             (Some "ABC123"%string) (Some "Alice"%string) None None None))) 0 "")) !! 1%nat =
  Some (mkClient "Alice" "ABC123" 0).
Proof.
  exact (proj2 (proj2 (proj2 (proj2 (X26_connect_inputs_accepted "abc123" " Alice " "ABC123" "Alice"
           ltac:(vm_compute; reflexivity))))) Scenarios.demo_one 1%nat 0 "").
Defined.

(** X27: [trim] removes exactly the whitespace at both ends: the string is
    a run of whitespace characters, the result and another run; the result
    neither starts nor ends with a whitespace character (so the runs are the
    longest ones), and [trim] is idempotent. Whitespace is ECMAScript's
    WhiteSpace and LineTerminator, e.g. U+00A0 and U+3000 included. *)
Theorem X27_trim_normal_form (s : string) :
  (exists p q, list_ascii_of_string s = p ++ list_ascii_of_string (trim s) ++ q /\
               ws_seq p /\ ws_seq q) /\
  (forall w r, is_ws w = true ->
     list_ascii_of_string (trim s) <> w ++ r /\ list_ascii_of_string (trim s) <> r ++ w) /\
  trim (trim s) = trim s.
Proof.
  split; [apply trim_split|]. split; [|apply trim_idem].
  intros w r Hw. apply trim_clean. exact Hw.
Qed.

End AppExtras.
